(** * X11DRV initialisation code (dlls/x11drv/x11drv_main.c)

    A shallow embedding of the driver bootstrap: option resolution against
    the registry, the attach and detach routines, creation of the desktop
    window, the errno redirection hooks and the screen saver queries.

    Conventions.
    - A C [int] or [unsigned int] is a [Z]; conversions that wrap are written
      out with [to_uint] and [to_int].
    - A [char *] is an [option string]: [None] is the NULL pointer and the
      [string] holds the bytes before the terminating NUL.
    - Calls that leave the process (Xlib, the registry, the message channels)
      are recorded as [event]s, in the order in which they happen.
    - A routine is a function from the [world] to the events it produced, the
      way it ended ([Normal], [Exited] through ExitProcess, or [Fault] for a
      NULL dereference) and the world it left behind. *)

From Stdlib Require Import ZArith String Ascii List Lia Bool.
From stdpp Require Import base gmap strings.
Import ListNotations.
Local Open Scope string_scope.
Local Open Scope Z_scope.

(** ** C integers *)

Definition to_uint (z : Z) : Z := z mod 2 ^ 32.

Definition to_int (z : Z) : Z :=
  let u := to_uint z in if u <? 2 ^ 31 then u else u - 2 ^ 32.

(** [strcmp]: only the sign of the result is specified by C; the bytes are
    compared as unsigned values, which is the order of [String.compare]. *)
Definition strcmp (a b : string) : Z :=
  match String.compare a b with
  | Eq => 0
  | Lt => -1
  | Gt => 1
  end.

Definition is_NULL {A} (p : option A) : bool :=
  match p with
  | None => true
  | Some _ => false
  end.

Definition strlen (s : string) : Z := Z.of_nat (String.length s).

(** [s[0]] of a NUL terminated string. *)
Definition first_char (s : string) : ascii :=
  match s with
  | EmptyString => "000"%char
  | String c _ => c
  end.

(** ** Constants of the X headers (X.h, Xutil.h, cursorfont.h) *)

Module X11.
Definition NoValue : Z := 0.
Definition XValue : Z := 1.
Definition YValue : Z := 2.
Definition WidthValue : Z := 4.
Definition HeightValue : Z := 8.
Definition XNegative : Z := 16.
Definition YNegative : Z := 32.

Definition USPosition : Z := 1.
Definition USSize : Z := 2.
Definition PSize : Z := 8.
Definition PMinSize : Z := 16.
Definition PMaxSize : Z := 32.

Definition InputHint : Z := 1.
Definition StateHint : Z := 2.
Definition NormalState : Z := 1.

Definition KeyPressMask : Z := 1.
Definition KeyReleaseMask : Z := 2.
Definition ButtonPressMask : Z := 4.
Definition ButtonReleaseMask : Z := 8.
Definition EnterWindowMask : Z := 16.
Definition PointerMotionMask : Z := 64.
Definition ExposureMask : Z := 32768.

Definition CWBackPixel : Z := 2.
Definition CWEventMask : Z := 2048.
Definition CWColormap : Z := 8192.
Definition CWCursor : Z := 16384.

Definition CopyFromParent : Z := 0.
Definition InputOutput : Z := 1.
Definition XC_top_left_arrow : Z := 132.

Definition KBKeyClickPercent : Z := 1.
Definition KBBellPercent : Z := 2.
Definition KBBellPitch : Z := 4.
Definition KBBellDuration : Z := 8.
Definition KBAutoRepeatMode : Z := 128.

Definition DefaultBlanking : Z := 2.
Definition DefaultExposures : Z := 2.
End X11.

(** ** Data *)

(** The fields of [struct options] (options.h) that this file reads or
    writes. *)
Record options := mkOptions {
  Options_display : option string;
  Options_managed : bool;
  Options_desktopGeometry : option string;
  Options_synchronous : bool
}.

(** XKeyboardState, as filled in by XGetKeyboardControl. *)
Record XKeyboardState := mkXKeyboardState {
  ks_key_click_percent : Z;          (* int *)
  ks_bell_percent : Z;               (* int *)
  ks_bell_pitch : Z;                 (* unsigned int *)
  ks_bell_duration : Z;              (* unsigned int *)
  ks_led_mask : Z;                   (* unsigned long *)
  ks_global_auto_repeat : Z;         (* int *)
  ks_auto_repeats : list Z           (* char[32] *)
}.

(** The fields of XKeyboardControl that process_detach fills in (all int). *)
Record XKeyboardControl := mkXKeyboardControl {
  kc_key_click_percent : Z;
  kc_bell_percent : Z;
  kc_bell_pitch : Z;
  kc_bell_duration : Z;
  kc_auto_repeat_mode : Z
}.

(** What the macros of Xlib read from an open [Display]. *)
Record xdisplay := mkXDisplay {
  ConnectionNumber : Z;
  DefaultScreen : Z;
  DefaultRootWindow : Z;
  DefaultVisual : Z;
  DefaultDepthOfScreen : Z;
  WidthOfScreen : Z;
  HeightOfScreen : Z;
  ListDepths : list Z;               (* XListDepths on the default screen *)
  BlackPixel0 : Z;                   (* BlackPixel(display, 0) *)
  RootWindowOf : Z -> Z              (* RootWindow(display, scr) *)
}.

Record XVisualInfo := mkXVisualInfo {
  vi_visual : Z;
  vi_screen : Z;
  vi_depth : Z
}.

Record XSizeHints := mkXSizeHints {
  sh_flags : Z;
  sh_min_width : Z;
  sh_min_height : Z;
  sh_max_width : Z;
  sh_max_height : Z
}.

Record XWMHints := mkXWMHints {
  wh_flags : Z;
  wh_input : bool;
  wh_initial_state : Z
}.

Record XClassHint := mkXClassHint {
  ch_res_name : string;
  ch_res_class : string
}.

Record XSetWindowAttributes := mkXSetWindowAttributes {
  wa_background_pixel : Z;
  wa_event_mask : Z;
  wa_cursor : Z;
  wa_colormap : option Z             (* left unset without a GLX visual *)
}.

(** The blocks that Xlib allocates for this file and that it releases with
    XFree.  A pointer to one of them is an [option xblock], [None] for NULL. *)
Inductive xblock :=
| blk_depth_list
| blk_size_hints
| blk_wm_hints
| blk_class_hint.

Definition thread_id := Z.
Definition addr := Z.

(** A pointer to a function from no argument to [int *]: one of the two hooks of this file, or a
    location function defined elsewhere, which answers from the identity of
    the calling thread. *)
Inductive errno_fn :=
| fn_null
| fn_x11_errno_location
| fn_x11_h_errno_location
| fn_extern (f : thread_id -> addr).

(** A pointer to a function without argument or result, as held in the TSX11
    lock hooks. *)
Inductive lock_fn :=
| lk_null
| lk_lock_tsx11
| lk_unlock_tsx11
| lk_extern (id : Z).

(** The screen saver settings and the keyboard settings kept by the server. *)
Record xserver := mkXServer {
  srv_keyboard : XKeyboardState;
  srv_timeout : Z;
  srv_interval : Z;
  srv_prefer_blanking : Z;
  srv_allow_exposures : Z;
  srv_default_timeout : Z;
  srv_default_interval : Z;
  srv_saver_on : bool
}.

(** The globals of x11drv_main.c and the globals of other modules that it
    assigns. *)
Record world := mkWorld {
  Options : options;
  registry : gmap string string;   (* values of ...\Config\x11drv, by lowercased name *)
  display : option xdisplay;
  screen : Z;
  visual : Z;
  screen_width : Z;
  screen_height : Z;
  screen_depth : Z;
  root_window : Z;
  X11DRV_server_startticks : Z;
  keyboard_state : XKeyboardState;
  WND_Driver_set : bool;
  OwningThread : thread_id;        (* X11DRV_CritSection.OwningThread, 0 when free *)
  wine_tsx11_lock : lock_fn;
  wine_tsx11_unlock : lock_fn;
  old_tsx11_lock : lock_fn;
  old_tsx11_unlock : lock_fn;
  wine_errno_location : errno_fn;
  wine_h_errno_location : errno_fn;
  old_errno_location : errno_fn;
  old_h_errno_location : errno_fn;
  server : xserver
}.

(** Build configuration and the answers of the outside world during one run. *)
Record environment := mkEnvironment {
  NO_REENTRANT_X11 : bool;
  perrno : addr;                   (* &errno, the static variable used by Xlib *)
  ph_errno : addr;                 (* &h_errno *)
  HAVE_OPENGL : bool;
  HAVE_LIBXXF86VM : bool;
  argv0 : string;
  (* IS_OPTION_TRUE and IS_OPTION_FALSE of options.h *)
  IS_OPTION_TRUE : ascii -> bool;
  IS_OPTION_FALSE : ascii -> bool;
  gettimeofday_sec : Z;
  gettimeofday_usec : Z;
  GetTickCount : Z;
  RegCreateKeyExA_status : Z;      (* 0 is ERROR_SUCCESS *)
  getenv_DISPLAY : option string;
  XOpenDisplay : option string -> option xdisplay;
  ini_ScreenDepth : Z;             (* PROFILE_GetWineIniInt("x11drv","ScreenDepth",0) *)
  ini_DesktopDoubleBuffered : bool;
  glXQueryExtension : bool;
  glXChooseVisual : option XVisualInfo;
  XCreateColormap : Z;
  XCreateFontCursor : Z;
  XCreateWindow : Z;               (* the id of the window the server creates *)
  XAllocSizeHints : option xblock; (* None is NULL *)
  XAllocWMHints : option xblock;
  XAllocClassHint : option xblock;
  XInternAtom_WM_DELETE_WINDOW : Z;
  X11DRV_GDI_Initialize : bool
}.

(** ** Events *)

Inductive message :=
| MSG_cannot_create_key
| MSG_display_option_ignored (prog buffer : string)
| MSG_DISPLAY_variable_ignored (prog buffer : string)
| MSG_no_display_specified (prog : string)
| MSG_not_enough_memory_for_hints
| MSG_cant_open_display (prog : string) (name : option string)
| MSG_depth_not_supported (prog : string) (depth : Z)
| MSG_gdi_init_failed (prog : string).

Inductive event :=
| EV_ERR (m : message)
| EV_MESSAGE (m : message)
| EV_RegSetValueExA (name value : string)
| EV_RegCloseKey
| EV_XOpenDisplay (name : option string)
| EV_fcntl_close_on_exec (fd : Z)
| EV_XListDepths
| EV_XFree (p : option xblock)
| EV_XOpenIM
| EV_XSetErrorHandler
| EV_glXChooseVisual
| EV_XCreateWindow (parent x y width height border depth class vis valuemask : Z)
    (attributes : XSetWindowAttributes)
| EV_XAllocSizeHints
| EV_XAllocWMHints
| EV_XAllocClassHint
| EV_XSetWMProperties (w : Z) (name : string)
    (size_hints : XSizeHints) (wm_hints : XWMHints) (class_hints : XClassHint)
| EV_XSetWMProtocols (w atom : Z)
| EV_XMapWindow (w : Z)
| EV_XGetKeyboardControl
| EV_XChangeKeyboardControl (mask : Z) (values : XKeyboardControl)
| EV_X11DRV_GDI_Initialize
| EV_X11DRV_GDI_Finalize
| EV_X11DRV_EVENT_Init
| EV_X11DRV_XF86VM_Init
| EV_X11DRV_XF86VM_Cleanup
| EV_LoadLibrary16 (name : string)
| EV_XGetScreenSaver
| EV_XActivateScreenSaver
| EV_XResetScreenSaver
| EV_XSetScreenSaver (timeout interval prefer_blanking allow_exposures : Z)
| EV_ExitProcess (status : Z).

(** ** Routines *)

Inductive outcome (A : Type) :=
| Normal (a : A)
| Exited (status : Z)
| Fault.
Arguments Normal {A} a.
Arguments Exited {A} status.
Arguments Fault {A}.

Record run (A : Type) := mkRun {
  events : list event;
  result : outcome A;
  final : world
}.
Arguments mkRun {A} _ _ _.
Arguments events {A} _.
Arguments result {A} _.
Arguments final {A} _.

Definition M (A : Type) : Type := world -> run A.

Definition ret {A} (a : A) : M A := fun w => mkRun [] (Normal a) w.

Definition bind {A B} (m : M A) (k : A -> M B) : M B := fun w =>
  match m w with
  | mkRun evs (Normal a) w1 =>
      match k a w1 with
      | mkRun evs' res w2 => mkRun (evs ++ evs') res w2
      end
  | mkRun evs (Exited s) w1 => mkRun evs (Exited s) w1
  | mkRun evs Fault w1 => mkRun evs Fault w1
  end.

#[export] Instance M_ret : MRet M := @ret.
#[export] Instance M_bind : MBind M := fun A B k m => bind m k.

Definition emit (e : event) : M unit := fun w => mkRun [e] (Normal tt) w.
Definition get : M world := fun w => mkRun [] (Normal w) w.
Definition modify (f : world -> world) : M unit := fun w => mkRun [] (Normal tt) (f w).
Definition fault {A} : M A := fun w => mkRun [] Fault w.

Definition ExitProcess {A} (status : Z) : M A := fun w =>
  mkRun [EV_ExitProcess status] (Exited status) w.

Definition ERR (m : message) : M unit := emit (EV_ERR m).
Definition MESSAGE (m : message) : M unit := emit (EV_MESSAGE m).

Definition when (b : bool) (m : M unit) : M unit := if b then m else ret tt.

(** ** Assignments to the globals *)

Definition set_Options v (w : world) : world :=
  mkWorld v (registry w) (display w) (screen w) (visual w) (screen_width w)
    (screen_height w) (screen_depth w) (root_window w)
    (X11DRV_server_startticks w) (keyboard_state w) (WND_Driver_set w)
    (OwningThread w) (wine_tsx11_lock w) (wine_tsx11_unlock w)
    (old_tsx11_lock w) (old_tsx11_unlock w) (wine_errno_location w)
    (wine_h_errno_location w) (old_errno_location w) (old_h_errno_location w)
    (server w).

Definition set_registry v (w : world) : world :=
  mkWorld (Options w) v (display w) (screen w) (visual w) (screen_width w)
    (screen_height w) (screen_depth w) (root_window w)
    (X11DRV_server_startticks w) (keyboard_state w) (WND_Driver_set w)
    (OwningThread w) (wine_tsx11_lock w) (wine_tsx11_unlock w)
    (old_tsx11_lock w) (old_tsx11_unlock w) (wine_errno_location w)
    (wine_h_errno_location w) (old_errno_location w) (old_h_errno_location w)
    (server w).

Definition set_display v (w : world) : world :=
  mkWorld (Options w) (registry w) v (screen w) (visual w) (screen_width w)
    (screen_height w) (screen_depth w) (root_window w)
    (X11DRV_server_startticks w) (keyboard_state w) (WND_Driver_set w)
    (OwningThread w) (wine_tsx11_lock w) (wine_tsx11_unlock w)
    (old_tsx11_lock w) (old_tsx11_unlock w) (wine_errno_location w)
    (wine_h_errno_location w) (old_errno_location w) (old_h_errno_location w)
    (server w).

Definition set_screen v (w : world) : world :=
  mkWorld (Options w) (registry w) (display w) v (visual w) (screen_width w)
    (screen_height w) (screen_depth w) (root_window w)
    (X11DRV_server_startticks w) (keyboard_state w) (WND_Driver_set w)
    (OwningThread w) (wine_tsx11_lock w) (wine_tsx11_unlock w)
    (old_tsx11_lock w) (old_tsx11_unlock w) (wine_errno_location w)
    (wine_h_errno_location w) (old_errno_location w) (old_h_errno_location w)
    (server w).

Definition set_visual v (w : world) : world :=
  mkWorld (Options w) (registry w) (display w) (screen w) v (screen_width w)
    (screen_height w) (screen_depth w) (root_window w)
    (X11DRV_server_startticks w) (keyboard_state w) (WND_Driver_set w)
    (OwningThread w) (wine_tsx11_lock w) (wine_tsx11_unlock w)
    (old_tsx11_lock w) (old_tsx11_unlock w) (wine_errno_location w)
    (wine_h_errno_location w) (old_errno_location w) (old_h_errno_location w)
    (server w).

Definition set_screen_width v (w : world) : world :=
  mkWorld (Options w) (registry w) (display w) (screen w) (visual w) v
    (screen_height w) (screen_depth w) (root_window w)
    (X11DRV_server_startticks w) (keyboard_state w) (WND_Driver_set w)
    (OwningThread w) (wine_tsx11_lock w) (wine_tsx11_unlock w)
    (old_tsx11_lock w) (old_tsx11_unlock w) (wine_errno_location w)
    (wine_h_errno_location w) (old_errno_location w) (old_h_errno_location w)
    (server w).

Definition set_screen_height v (w : world) : world :=
  mkWorld (Options w) (registry w) (display w) (screen w) (visual w)
    (screen_width w) v (screen_depth w) (root_window w)
    (X11DRV_server_startticks w) (keyboard_state w) (WND_Driver_set w)
    (OwningThread w) (wine_tsx11_lock w) (wine_tsx11_unlock w)
    (old_tsx11_lock w) (old_tsx11_unlock w) (wine_errno_location w)
    (wine_h_errno_location w) (old_errno_location w) (old_h_errno_location w)
    (server w).

Definition set_screen_depth v (w : world) : world :=
  mkWorld (Options w) (registry w) (display w) (screen w) (visual w)
    (screen_width w) (screen_height w) v (root_window w)
    (X11DRV_server_startticks w) (keyboard_state w) (WND_Driver_set w)
    (OwningThread w) (wine_tsx11_lock w) (wine_tsx11_unlock w)
    (old_tsx11_lock w) (old_tsx11_unlock w) (wine_errno_location w)
    (wine_h_errno_location w) (old_errno_location w) (old_h_errno_location w)
    (server w).

Definition set_root_window v (w : world) : world :=
  mkWorld (Options w) (registry w) (display w) (screen w) (visual w)
    (screen_width w) (screen_height w) (screen_depth w) v
    (X11DRV_server_startticks w) (keyboard_state w) (WND_Driver_set w)
    (OwningThread w) (wine_tsx11_lock w) (wine_tsx11_unlock w)
    (old_tsx11_lock w) (old_tsx11_unlock w) (wine_errno_location w)
    (wine_h_errno_location w) (old_errno_location w) (old_h_errno_location w)
    (server w).

Definition set_X11DRV_server_startticks v (w : world) : world :=
  mkWorld (Options w) (registry w) (display w) (screen w) (visual w)
    (screen_width w) (screen_height w) (screen_depth w) (root_window w) v
    (keyboard_state w) (WND_Driver_set w) (OwningThread w) (wine_tsx11_lock w)
    (wine_tsx11_unlock w) (old_tsx11_lock w) (old_tsx11_unlock w)
    (wine_errno_location w) (wine_h_errno_location w) (old_errno_location w)
    (old_h_errno_location w) (server w).

Definition set_keyboard_state v (w : world) : world :=
  mkWorld (Options w) (registry w) (display w) (screen w) (visual w)
    (screen_width w) (screen_height w) (screen_depth w) (root_window w)
    (X11DRV_server_startticks w) v (WND_Driver_set w) (OwningThread w)
    (wine_tsx11_lock w) (wine_tsx11_unlock w) (old_tsx11_lock w)
    (old_tsx11_unlock w) (wine_errno_location w) (wine_h_errno_location w)
    (old_errno_location w) (old_h_errno_location w) (server w).

Definition set_WND_Driver_set v (w : world) : world :=
  mkWorld (Options w) (registry w) (display w) (screen w) (visual w)
    (screen_width w) (screen_height w) (screen_depth w) (root_window w)
    (X11DRV_server_startticks w) (keyboard_state w) v (OwningThread w)
    (wine_tsx11_lock w) (wine_tsx11_unlock w) (old_tsx11_lock w)
    (old_tsx11_unlock w) (wine_errno_location w) (wine_h_errno_location w)
    (old_errno_location w) (old_h_errno_location w) (server w).

Definition set_OwningThread v (w : world) : world :=
  mkWorld (Options w) (registry w) (display w) (screen w) (visual w)
    (screen_width w) (screen_height w) (screen_depth w) (root_window w)
    (X11DRV_server_startticks w) (keyboard_state w) (WND_Driver_set w) v
    (wine_tsx11_lock w) (wine_tsx11_unlock w) (old_tsx11_lock w)
    (old_tsx11_unlock w) (wine_errno_location w) (wine_h_errno_location w)
    (old_errno_location w) (old_h_errno_location w) (server w).

Definition set_wine_tsx11_lock v (w : world) : world :=
  mkWorld (Options w) (registry w) (display w) (screen w) (visual w)
    (screen_width w) (screen_height w) (screen_depth w) (root_window w)
    (X11DRV_server_startticks w) (keyboard_state w) (WND_Driver_set w)
    (OwningThread w) v (wine_tsx11_unlock w) (old_tsx11_lock w)
    (old_tsx11_unlock w) (wine_errno_location w) (wine_h_errno_location w)
    (old_errno_location w) (old_h_errno_location w) (server w).

Definition set_wine_tsx11_unlock v (w : world) : world :=
  mkWorld (Options w) (registry w) (display w) (screen w) (visual w)
    (screen_width w) (screen_height w) (screen_depth w) (root_window w)
    (X11DRV_server_startticks w) (keyboard_state w) (WND_Driver_set w)
    (OwningThread w) (wine_tsx11_lock w) v (old_tsx11_lock w)
    (old_tsx11_unlock w) (wine_errno_location w) (wine_h_errno_location w)
    (old_errno_location w) (old_h_errno_location w) (server w).

Definition set_old_tsx11_lock v (w : world) : world :=
  mkWorld (Options w) (registry w) (display w) (screen w) (visual w)
    (screen_width w) (screen_height w) (screen_depth w) (root_window w)
    (X11DRV_server_startticks w) (keyboard_state w) (WND_Driver_set w)
    (OwningThread w) (wine_tsx11_lock w) (wine_tsx11_unlock w) v
    (old_tsx11_unlock w) (wine_errno_location w) (wine_h_errno_location w)
    (old_errno_location w) (old_h_errno_location w) (server w).

Definition set_old_tsx11_unlock v (w : world) : world :=
  mkWorld (Options w) (registry w) (display w) (screen w) (visual w)
    (screen_width w) (screen_height w) (screen_depth w) (root_window w)
    (X11DRV_server_startticks w) (keyboard_state w) (WND_Driver_set w)
    (OwningThread w) (wine_tsx11_lock w) (wine_tsx11_unlock w)
    (old_tsx11_lock w) v (wine_errno_location w) (wine_h_errno_location w)
    (old_errno_location w) (old_h_errno_location w) (server w).

Definition set_wine_errno_location v (w : world) : world :=
  mkWorld (Options w) (registry w) (display w) (screen w) (visual w)
    (screen_width w) (screen_height w) (screen_depth w) (root_window w)
    (X11DRV_server_startticks w) (keyboard_state w) (WND_Driver_set w)
    (OwningThread w) (wine_tsx11_lock w) (wine_tsx11_unlock w)
    (old_tsx11_lock w) (old_tsx11_unlock w) v (wine_h_errno_location w)
    (old_errno_location w) (old_h_errno_location w) (server w).

Definition set_wine_h_errno_location v (w : world) : world :=
  mkWorld (Options w) (registry w) (display w) (screen w) (visual w)
    (screen_width w) (screen_height w) (screen_depth w) (root_window w)
    (X11DRV_server_startticks w) (keyboard_state w) (WND_Driver_set w)
    (OwningThread w) (wine_tsx11_lock w) (wine_tsx11_unlock w)
    (old_tsx11_lock w) (old_tsx11_unlock w) (wine_errno_location w) v
    (old_errno_location w) (old_h_errno_location w) (server w).

Definition set_old_errno_location v (w : world) : world :=
  mkWorld (Options w) (registry w) (display w) (screen w) (visual w)
    (screen_width w) (screen_height w) (screen_depth w) (root_window w)
    (X11DRV_server_startticks w) (keyboard_state w) (WND_Driver_set w)
    (OwningThread w) (wine_tsx11_lock w) (wine_tsx11_unlock w)
    (old_tsx11_lock w) (old_tsx11_unlock w) (wine_errno_location w)
    (wine_h_errno_location w) v (old_h_errno_location w) (server w).

Definition set_old_h_errno_location v (w : world) : world :=
  mkWorld (Options w) (registry w) (display w) (screen w) (visual w)
    (screen_width w) (screen_height w) (screen_depth w) (root_window w)
    (X11DRV_server_startticks w) (keyboard_state w) (WND_Driver_set w)
    (OwningThread w) (wine_tsx11_lock w) (wine_tsx11_unlock w)
    (old_tsx11_lock w) (old_tsx11_unlock w) (wine_errno_location w)
    (wine_h_errno_location w) (old_errno_location w) v (server w).

Definition set_server v (w : world) : world :=
  mkWorld (Options w) (registry w) (display w) (screen w) (visual w)
    (screen_width w) (screen_height w) (screen_depth w) (root_window w)
    (X11DRV_server_startticks w) (keyboard_state w) (WND_Driver_set w)
    (OwningThread w) (wine_tsx11_lock w) (wine_tsx11_unlock w)
    (old_tsx11_lock w) (old_tsx11_unlock w) (wine_errno_location w)
    (wine_h_errno_location w) (old_errno_location w) (old_h_errno_location w)
    v.

Definition set_Options_display v (o : options) : options :=
  mkOptions v (Options_managed o) (Options_desktopGeometry o)
    (Options_synchronous o).

Definition set_Options_managed v (o : options) : options :=
  mkOptions (Options_display o) v (Options_desktopGeometry o)
    (Options_synchronous o).

Definition set_Options_desktopGeometry v (o : options) : options :=
  mkOptions (Options_display o) (Options_managed o) v (Options_synchronous o).

Definition modify_Options (f : options -> options) : M unit :=
  modify (fun w => set_Options (f (Options w)) w).

(** ** The registry key Software\Wine\Wine\Config\x11drv

    Value names are compared without regard to case; a string value is
    stored with its terminating NUL. *)

Definition tolower (c : ascii) : ascii :=
  let n := nat_of_ascii c in
  if ((65 <=? n) && (n <=? 90))%nat then ascii_of_nat (n + 32) else c.

Fixpoint value_name (s : string) : string :=
  match s with
  | EmptyString => EmptyString
  | String c s' => String (tolower c) (value_name s')
  end.

Definition ERROR_FILE_NOT_FOUND : Z := 2.
Definition ERROR_MORE_DATA : Z := 234.

Inductive reg_answer :=
| reg_ok (buffer : string)         (* ERROR_SUCCESS, and what the buffer holds *)
| reg_error (status : Z).

(** [RegQueryValueExA( hkey, name, 0, &type, buffer, &count )]: the data is
    copied only when its size, terminator included, is at most [count];
    otherwise the call fails with ERROR_MORE_DATA and the buffer is left
    alone.  A missing value is ERROR_FILE_NOT_FOUND. *)
Definition RegQueryValueExA (name : string) (count : Z) : M reg_answer := fun w =>
  mkRun [] (Normal
    match registry w !! value_name name with
    | Some data =>
        if strlen data + 1 <=? count then reg_ok data else reg_error ERROR_MORE_DATA
    | None => reg_error ERROR_FILE_NOT_FOUND
    end) w.

(** [RegSetValueExA( hkey, name, 0, REG_SZ, data, strlen(data)+1 )] *)
Definition RegSetValueExA (name data : string) : M unit :=
  modify (fun w => set_registry (<[value_name name := data]> (registry w)) w);;
  emit (EV_RegSetValueExA name data).

(** [sizeof(buffer)] for [char buffer[256]]. *)
Definition sizeof_buffer : Z := 256.

(** ** get_server_startup *)

Definition get_server_startup (E : environment) : M unit :=
  modify (set_X11DRV_server_startticks
            (to_uint (gettimeofday_sec E * 1000 + gettimeofday_usec E `quot` 1000
                      - GetTickCount E))).

(** ** setup_options *)

Definition setup_options (E : environment) : M unit :=
  (if negb (RegCreateKeyExA_status E =? 0)
   then ERR MSG_cannot_create_key;; ExitProcess 1
   else mret tt);;
  (* --display option *)
  q ← RegQueryValueExA "display" sizeof_buffer;
  match q with
  | reg_ok buffer =>
      w ← get;
      match Options_display (Options w) with
      | Some d =>
          when (negb (strcmp buffer d =? 0))
               (MESSAGE (MSG_display_option_ignored (argv0 E) buffer))
      | None =>
          modify_Options (set_Options_display (getenv_DISPLAY E));;
          match getenv_DISPLAY E with
          | Some d =>
              when (negb (strcmp buffer d =? 0))
                   (MESSAGE (MSG_DISPLAY_variable_ignored (argv0 E) buffer))
          | None => mret tt
          end
      end;;
      modify_Options (set_Options_display (Some buffer))
  | reg_error _ =>
      w ← get;
      match Options_display (Options w) with
      | Some _ => mret tt
      | None =>
          modify_Options (set_Options_display (getenv_DISPLAY E));;
          match getenv_DISPLAY E with
          | Some _ => mret tt
          | None => MESSAGE (MSG_no_display_specified (argv0 E));; ExitProcess 1
          end
      end;;
      w ← get;
      match Options_display (Options w) with
      | Some d => RegSetValueExA "display" d
      | None => fault
      end
  end;;
  (* check and set --managed and --desktop options in wine config file
     if it was not set on command line *)
  w ← get;
  (if negb (Options_managed (Options w))
      && is_NULL (Options_desktopGeometry (Options w))
   then
     q ← RegQueryValueExA "managed" sizeof_buffer;
     match q with
     | reg_ok buffer =>
         modify_Options (set_Options_managed (IS_OPTION_TRUE E (first_char buffer)))
     | reg_error _ => mret tt
     end;;
     q ← RegQueryValueExA "Desktop" sizeof_buffer;
     match q with
     | reg_ok buffer =>
         when (negb (IS_OPTION_FALSE E (first_char buffer)))
              (modify_Options (set_Options_desktopGeometry (Some buffer)))
     | reg_error _ => mret tt
     end
   else mret tt);;
  w ← get;
  when (Options_managed (Options w)) (RegSetValueExA "managed" "y");;
  w ← get;
  match Options_desktopGeometry (Options w) with
  | Some g => RegSetValueExA "desktop" g
  | None => mret tt
  end;;
  emit EV_RegCloseKey.

(** ** XParseGeometry (Xlib, ParseGeom.c)

    [=][<width>][{xX}<height>][{+-}<xoffset>[{+-}<yoffset>]].  The scan
    collects the values it finds in temporaries and a mask of what it found;
    the caller's variables are assigned only for the bits of the mask.  A
    pointer into the string is the suffix that remains to be read, and an
    [int] that overflows wraps around.  TSXParseGeometry is this function
    called under the TSX11 lock. *)

Definition is_digit (c : ascii) : bool :=
  let n := nat_of_ascii c in ((48 <=? n) && (n <=? 57))%nat.

Definition digit_value (c : ascii) : Z := Z.of_nat (nat_of_ascii c) - 48.

Fixpoint read_digits (Result : Z) (s : string) : Z * string :=
  match s with
  | String c s' =>
      if is_digit c then read_digits (to_int (Result * 10 + digit_value c)) s'
      else (Result, s)
  | EmptyString => (Result, s)
  end.

(** [ReadInteger( string, &NextString )] *)
Definition ReadInteger (s : string) : Z * string :=
  let '(Sign, s1) :=
    match s with
    | String "+"%char s' => (1, s')
    | String "-"%char s' => (-1, s')
    | _ => (1, s)
    end in
  let '(Result, NextString) := read_digits 0 s1 in
  (if 0 <=? Sign then Result else to_int (- Result), NextString).

(** [strind == nextCharacter], for [nextCharacter] a suffix of [strind]. *)
Definition same_position (strind nextCharacter : string) : bool :=
  (String.length strind =? String.length nextCharacter)%nat.

Record geometry_scan := mkScan {
  scan_mask : Z;
  tempX : Z;
  tempY : Z;
  tempWidth : Z;
  tempHeight : Z
}.

Definition char_is (s : string) (c : ascii) : bool :=
  bool_decide (first_char s = c).

Definition skip (s : string) : string :=
  match s with
  | String _ s' => s'
  | EmptyString => EmptyString
  end.

(** The scanning part of XParseGeometry; [None] stands for the early
    [return 0] on a malformed string. *)
Definition XParseGeometry_scan (str : string) : option geometry_scan :=
  if char_is str "000" then Some (mkScan X11.NoValue 0 0 0 0) else
  let strind := if char_is str "=" then skip str else str in
  '(mask, tempWidth, strind) ←
    (if negb (char_is strind "+") && negb (char_is strind "-") && negb (char_is strind "x")
     then
       let '(v, nextCharacter) := ReadInteger strind in
       if same_position strind nextCharacter then None
       else Some (Z.lor X11.NoValue X11.WidthValue, to_uint v, nextCharacter)
     else Some (X11.NoValue, 0, strind));
  '(mask, tempHeight, strind) ←
    (if char_is strind "x" || char_is strind "X"
     then
       let strind := skip strind in
       let '(v, nextCharacter) := ReadInteger strind in
       if same_position strind nextCharacter then None
       else Some (Z.lor mask X11.HeightValue, to_uint v, nextCharacter)
     else Some (mask, 0, strind));
  '(mask, tempX, tempY, strind) ←
    (if char_is strind "+" || char_is strind "-"
     then
       '(mask, tempX, strind) ←
         (if char_is strind "-"
          then
            let strind := skip strind in
            let '(v, nextCharacter) := ReadInteger strind in
            if same_position strind nextCharacter then None
            else Some (Z.lor mask X11.XNegative, to_int (- v), nextCharacter)
          else
            let strind := skip strind in
            let '(v, nextCharacter) := ReadInteger strind in
            if same_position strind nextCharacter then None
            else Some (mask, v, nextCharacter));
       let mask := Z.lor mask X11.XValue in
       if char_is strind "+" || char_is strind "-"
       then
         '(mask, tempY, strind) ←
           (if char_is strind "-"
            then
              let strind := skip strind in
              let '(v, nextCharacter) := ReadInteger strind in
              if same_position strind nextCharacter then None
              else Some (Z.lor mask X11.YNegative, to_int (- v), nextCharacter)
            else
              let strind := skip strind in
              let '(v, nextCharacter) := ReadInteger strind in
              if same_position strind nextCharacter then None
              else Some (mask, v, nextCharacter));
         Some (Z.lor mask X11.YValue, tempX, tempY, strind)
       else Some (mask, tempX, 0, strind)
     else Some (mask, 0, 0, strind));
  (* If strind isn't at the end of the string then it's an invalid
     geometry specification. *)
  if negb (char_is strind "000") then None
  else Some (mkScan mask tempX tempY tempWidth tempHeight).

Definition has_flag (flags bits : Z) : bool := negb (Z.land flags bits =? 0).

(** [XParseGeometry( string, &x, &y, &width, &height )]: the mask that is
    returned and the contents of the four variables afterwards. *)
Definition XParseGeometry (str : string) (x y width height : Z) : Z * (Z * Z * Z * Z) :=
  match XParseGeometry_scan str with
  | None => (0, (x, y, width, height))
  | Some g =>
      let mask := scan_mask g in
      (mask,
       (if has_flag mask X11.XValue then tempX g else x,
        if has_flag mask X11.YValue then tempY g else y,
        if has_flag mask X11.WidthValue then tempWidth g else width,
        if has_flag mask X11.HeightValue then tempHeight g else height))
  end.

(** ** create_desktop *)

(** A use of [display] by Xlib; it is dereferenced, so NULL is a fault. *)
Definition the_display : M xdisplay := fun w =>
  match display w with
  | Some d => mkRun [] (Normal d) w
  | None => mkRun [] Fault w
  end.

Definition bit_or (l : list Z) : Z := fold_right Z.lor 0 l.

Definition create_desktop (E : environment) (geometry : string) : M unit :=
  let x := 0 in
  let y := 0 in
  let width := 640 in
  let height := 480 in               (* Default size = 640x480 *)
  let name := "Wine desktop" in
  (* Used to create the desktop window with a good visual *)
  '(vi, colormap) ←
    (if HAVE_OPENGL E then
       (* Get in wine.ini if the desktop window should have a double-buffered
          visual or not.  But first, test if OpenGL is even supported on the
          display ! *)
       d ← the_display;
       if glXQueryExtension E then
         if ini_DesktopDoubleBuffered E then
           emit EV_glXChooseVisual;;
           match glXChooseVisual E with
           | Some v => mret (Some v, Some (XCreateColormap E))
           | None => fault             (* vi->screen *)
           end
         else mret (None, None)
       else mret (None, None)
     else mret (None, None));
  let '(flags, (x, y, width, height)) := XParseGeometry geometry x y width height in
  modify (set_screen_width width);;
  modify (set_screen_height height);;
  (* Create window *)
  d ← the_display;
  let win_attr :=
    mkXSetWindowAttributes
      (BlackPixel0 d)
      (bit_or [X11.ExposureMask; X11.KeyPressMask; X11.KeyReleaseMask;
               X11.PointerMotionMask; X11.ButtonPressMask;
               X11.ButtonReleaseMask; X11.EnterWindowMask])
      (XCreateFontCursor E)
      colormap in
  match vi with
  | Some v =>
      modify (set_visual (vi_visual v));;
      modify (set_screen (vi_screen v));;
      modify (set_screen_depth (to_uint (vi_depth v)))
  | None => mret tt
  end;;
  emit (EV_XCreateWindow
          (match vi with None => DefaultRootWindow d | Some v => RootWindowOf d (vi_screen v) end)
          x y width height 0
          (match vi with None => X11.CopyFromParent | Some v => vi_depth v end)
          X11.InputOutput
          (match vi with None => X11.CopyFromParent | Some v => vi_visual v end)
          (bit_or [X11.CWBackPixel; X11.CWEventMask; X11.CWCursor;
                   match vi with None => 0 | Some _ => X11.CWColormap end])
          win_attr);;
  modify (set_root_window (XCreateWindow E));;
  w ← get;
  let root_window := root_window w in
  (* Set window manager properties *)
  emit EV_XAllocSizeHints;;
  let size_hints := XAllocSizeHints E in
  emit EV_XAllocWMHints;;
  let wm_hints := XAllocWMHints E in
  emit EV_XAllocClassHint;;
  let class_hints := XAllocClassHint E in
  (if is_NULL size_hints || is_NULL wm_hints || is_NULL class_hints
   then MESSAGE MSG_not_enough_memory_for_hints;; ExitProcess 1
   else mret tt);;
  let sh_flags := Z.lor X11.PMinSize X11.PMaxSize in
  let sh_flags :=
    if has_flag flags (Z.lor X11.XValue X11.YValue)
    then Z.lor sh_flags X11.USPosition else sh_flags in
  let sh_flags :=
    if has_flag flags (Z.lor X11.WidthValue X11.HeightValue)
    then Z.lor sh_flags X11.USSize else Z.lor sh_flags X11.PSize in
  let sh := mkXSizeHints sh_flags (to_int width) (to_int height) (to_int width) (to_int height) in
  let wh := mkXWMHints (Z.lor X11.InputHint X11.StateHint) true X11.NormalState in
  let ch := mkXClassHint (argv0 E) "Wine" in
  emit (EV_XSetWMProperties root_window name sh wh ch);;
  emit (EV_XSetWMProtocols root_window (XInternAtom_WM_DELETE_WINDOW E));;
  emit (EV_XFree size_hints);;
  emit (EV_XFree wm_hints);;
  emit (EV_XFree class_hints);;
  (* Map window *)
  emit (EV_XMapWindow root_window).

(** ** X11DRV process initialisation routine *)

(** The position at which the loop over [depth_list] stops: the first index
    whose entry equals [screen_depth], or [depth_count]. *)
Fixpoint depth_loop (depth_list : list Z) (screen_depth : Z) : nat :=
  match depth_list with
  | [] => 0
  | d :: rest =>
      if to_uint d =? screen_depth then 0%nat else S (depth_loop rest screen_depth)
  end.

Definition process_attach (E : environment) : M unit :=
  modify (set_WND_Driver_set true);;
  get_server_startup E;;
  setup_options E;;
  (* setup TSX11 locking *)
  when (NO_REENTRANT_X11 E)
    (w ← get;
     modify (set_wine_errno_location fn_x11_errno_location);;
     modify (set_old_errno_location (wine_errno_location w));;
     w ← get;
     modify (set_wine_h_errno_location fn_x11_h_errno_location);;
     modify (set_old_h_errno_location (wine_h_errno_location w)));;
  w ← get;
  modify (set_old_tsx11_lock (wine_tsx11_lock w));;
  modify (set_old_tsx11_unlock (wine_tsx11_unlock w));;
  modify (set_wine_tsx11_lock lk_lock_tsx11);;
  modify (set_wine_tsx11_unlock lk_unlock_tsx11);;
  (* Open display *)
  w ← get;
  emit (EV_XOpenDisplay (Options_display (Options w)));;
  modify (set_display (XOpenDisplay E (Options_display (Options w))));;
  w ← get;
  match display w with
  | None =>
      MESSAGE (MSG_cant_open_display (argv0 E) (Options_display (Options w)));;
      ExitProcess 1
  | Some d =>
      emit (EV_fcntl_close_on_exec (ConnectionNumber d));;   (* set close on exec flag *)
      modify (set_screen (DefaultScreen d));;
      modify (set_visual (DefaultVisual d));;
      modify (set_root_window (DefaultRootWindow d));;
      (* Initialize screen depth *)
      modify (set_screen_depth (to_uint (ini_ScreenDepth E)));;
      w ← get;
      (if negb (screen_depth w =? 0)     (* depth specified *)
       then
         emit EV_XListDepths;;
         let depth_list := ListDepths d in
         let depth_count := length depth_list in
         let i := depth_loop depth_list (screen_depth w) in
         emit (EV_XFree (Some blk_depth_list));;
         if (depth_count <=? i)%nat
         then
           MESSAGE (MSG_depth_not_supported (argv0 E) (screen_depth w));;
           ExitProcess 1
         else mret tt
       else modify (set_screen_depth (to_uint (DefaultDepthOfScreen d))));;
      (* tell the libX11 that we will do input method handling ourselves *)
      emit EV_XOpenIM;;
      w ← get;
      when (Options_synchronous (Options w)) (emit EV_XSetErrorHandler);;
      modify (set_screen_width (to_uint (WidthOfScreen d)));;
      modify (set_screen_height (to_uint (HeightOfScreen d)));;
      match Options_desktopGeometry (Options w) with
      | Some geometry =>
          modify_Options (set_Options_managed false);;
          create_desktop E geometry
      | None => mret tt
      end;;
      (* initialize GDI *)
      emit EV_X11DRV_GDI_Initialize;;
      (if negb (X11DRV_GDI_Initialize E)
       then MESSAGE (MSG_gdi_init_failed (argv0 E));; ExitProcess 1
       else mret tt);;
      (* save keyboard setup *)
      emit EV_XGetKeyboardControl;;
      modify (fun w => set_keyboard_state (srv_keyboard (server w)) w);;
      (* initialize event handling *)
      emit EV_X11DRV_EVENT_Init;;
      (* initialize XVidMode *)
      when (HAVE_LIBXXF86VM E) (emit EV_X11DRV_XF86VM_Init);;
      (* load display.dll *)
      emit (EV_LoadLibrary16 "display")
  end.

(** ** X11DRV process termination routine *)

Definition process_detach (E : environment) : M unit :=
  (* restore keyboard setup *)
  w ← get;
  let keyboard_value :=
    mkXKeyboardControl
      (ks_key_click_percent (keyboard_state w))
      (ks_bell_percent (keyboard_state w))
      (to_int (ks_bell_pitch (keyboard_state w)))
      (to_int (ks_bell_duration (keyboard_state w)))
      (ks_global_auto_repeat (keyboard_state w)) in
  d ← the_display;
  emit (EV_XChangeKeyboardControl
          (bit_or [X11.KBKeyClickPercent; X11.KBBellPercent; X11.KBBellPitch;
                   X11.KBBellDuration; X11.KBAutoRepeatMode])
          keyboard_value);;
  (* cleanup XVidMode *)
  when (HAVE_LIBXXF86VM E) (emit EV_X11DRV_XF86VM_Cleanup);;
  (* cleanup GDI *)
  emit EV_X11DRV_GDI_Finalize;;
  (* restore TSX11 locking *)
  modify (fun w => set_wine_tsx11_lock (old_tsx11_lock w) w);;
  modify (fun w => set_wine_tsx11_unlock (old_tsx11_unlock w) w);;
  when (NO_REENTRANT_X11 E)
    (modify (fun w => set_wine_errno_location (old_errno_location w) w);;
     modify (fun w => set_wine_h_errno_location (old_h_errno_location w) w)).

(** ** X11DRV initialisation routine *)

Definition DLL_PROCESS_DETACH : Z := 0.
Definition DLL_PROCESS_ATTACH : Z := 1.

Definition X11DRV_Init (E : environment) (reason : Z) : M bool :=
  (if reason =? DLL_PROCESS_ATTACH then process_attach E
   else if reason =? DLL_PROCESS_DETACH then process_detach E
   else mret tt);;
  mret true.

(** ** The errno hooks (NO_REENTRANT_X11)

    [call_errno_fn] calls through a function pointer on behalf of thread
    [cur], which is what GetCurrentThreadId answers inside the hooks.  The
    hooks call the saved pointer in turn, so the depth of calls is bounded
    by [fuel]; [None] is a call through NULL or a chain of calls that does
    not end within the bound. *)

Fixpoint call_errno_fn (fuel : nat) (E : environment) (w : world)
    (cur : thread_id) (fn : errno_fn) : option addr :=
  match fn with
  | fn_null => None
  | fn_extern f => Some (f cur)
  | fn_x11_errno_location =>
      (* Use static libc errno while running in Xlib. *)
      if OwningThread w =? cur then Some (perrno E)
      else
        match fuel with
        | O => None
        | S fuel' => call_errno_fn fuel' E w cur (old_errno_location w)
        end
  | fn_x11_h_errno_location =>
      (* Use static libc h_errno while running in Xlib. *)
      if OwningThread w =? cur then Some (ph_errno E)
      else
        match fuel with
        | O => None
        | S fuel' => call_errno_fn fuel' E w cur (old_h_errno_location w)
        end
  end.

Definition x11_errno_location (fuel : nat) (E : environment) (w : world)
    (cur : thread_id) : option addr :=
  call_errno_fn fuel E w cur fn_x11_errno_location.

Definition x11_h_errno_location (fuel : nat) (E : environment) (w : world)
    (cur : thread_id) : option addr :=
  call_errno_fn fuel E w cur fn_x11_h_errno_location.

(** ** Screen saver *)

Definition modify_server (f : xserver -> xserver) : M unit :=
  modify (fun w => set_server (f (server w)) w).

Definition set_srv_saver_on (b : bool) (s : xserver) : xserver :=
  mkXServer (srv_keyboard s) (srv_timeout s) (srv_interval s)
    (srv_prefer_blanking s) (srv_allow_exposures s)
    (srv_default_timeout s) (srv_default_interval s) b.

Definition set_srv_keyboard (k : XKeyboardState) (s : xserver) : xserver :=
  mkXServer k (srv_timeout s) (srv_interval s)
    (srv_prefer_blanking s) (srv_allow_exposures s)
    (srv_default_timeout s) (srv_default_interval s) (srv_saver_on s).

Definition to_int16 (z : Z) : Z :=
  let u := z mod 2 ^ 16 in if u <? 2 ^ 15 then u else u - 2 ^ 16.

(** The SetScreenSaver request carries timeout and interval as INT16; -1
    restores the default, another negative value is a Value error and the
    request changes nothing. *)
Definition srv_SetScreenSaver (timeout interval prefer_blanking allow_exposures : Z)
    (s : xserver) : xserver :=
  let t := to_int16 timeout in
  let i := to_int16 interval in
  if (t <? -1) || (i <? -1) then s
  else
    mkXServer (srv_keyboard s)
      (if t =? -1 then srv_default_timeout s else t)
      (if i =? -1 then srv_default_interval s else i)
      prefer_blanking allow_exposures
      (srv_default_timeout s) (srv_default_interval s) (srv_saver_on s).

(** [TSXGetScreenSaver( display, &timeout, ... )]: the timeout it stores. *)
Definition TSXGetScreenSaver : M Z :=
  d ← the_display;
  emit EV_XGetScreenSaver;;
  w ← get;
  mret (srv_timeout (server w)).

Definition TSXActivateScreenSaver : M unit :=
  d ← the_display;
  emit EV_XActivateScreenSaver;;
  modify_server (set_srv_saver_on true).

Definition TSXResetScreenSaver : M unit :=
  d ← the_display;
  emit EV_XResetScreenSaver;;
  modify_server (set_srv_saver_on false).

Definition TSXSetScreenSaver (timeout interval prefer_blanking allow_exposures : Z) : M unit :=
  d ← the_display;
  emit (EV_XSetScreenSaver timeout interval prefer_blanking allow_exposures);;
  modify_server (srv_SetScreenSaver timeout interval prefer_blanking allow_exposures).

(** Returns the active status of the screen saver *)
Definition X11DRV_GetScreenSaveActive : M bool :=
  timeout ← TSXGetScreenSaver;
  mret (negb (timeout =? 0)).

(** Activate/Deactivate the screen saver *)
Definition X11DRV_SetScreenSaveActive (bActivate : bool) : M unit :=
  if bActivate then TSXActivateScreenSaver else TSXResetScreenSaver.

(** Return the screen saver timeout *)
Definition X11DRV_GetScreenSaveTimeout : M Z :=
  timeout ← TSXGetScreenSaver;
  mret timeout.

(** Set the screen saver timeout *)
Definition X11DRV_SetScreenSaveTimeout (nTimeout : Z) : M unit :=
  (* timeout is a 16bit entity (CARD16) in the protocol, so it should
     not get over 32767 or it will get negative. *)
  let nTimeout := if nTimeout >? 32767 then 32767 else nTimeout in
  TSXSetScreenSaver nTimeout 60 X11.DefaultBlanking X11.DefaultExposures.

Definition X11DRV_IsSingleWindow : M bool :=
  d ← the_display;
  w ← get;
  mret (negb (root_window w =? DefaultRootWindow d)).

(** ** A concrete run

    A server with one screen of 1024x768 at depth 24, a registry that holds
    a display address, and a command line that asked for a desktop. *)

Definition sample_xdisplay : xdisplay :=
  mkXDisplay 3 0 37 33 24 1024 768 [24; 1; 8; 16; 32] 0 (fun _ => 37).

Definition sample_keyboard : XKeyboardState :=
  mkXKeyboardState 0 50 400 100 0 1 (repeat 255 32).

Definition sample_server : xserver :=
  mkXServer sample_keyboard 600 600 1 1 600 600 false.

Definition option_true (c : ascii) : bool :=
  bool_decide (c = "y"%char ∨ c = "Y"%char ∨ c = "t"%char ∨ c = "T"%char ∨ c = "1"%char).

Definition option_false (c : ascii) : bool :=
  bool_decide (c = "n"%char ∨ c = "N"%char ∨ c = "f"%char ∨ c = "F"%char ∨ c = "0"%char).

(** An environment that differs from run to run in what RegCreateKeyExA
    returns, in the depth asked for in wine.ini, in what XAllocWMHints
    answers and in $DISPLAY. *)
Definition make_env (key_status depth : Z) (wm_hints : option xblock)
    (env_display : option string) : environment :=
  {| NO_REENTRANT_X11 := true;
     perrno := 4096;
     ph_errno := 4100;
     HAVE_OPENGL := false;
     HAVE_LIBXXF86VM := true;
     argv0 := "wine";
     IS_OPTION_TRUE := option_true;
     IS_OPTION_FALSE := option_false;
     gettimeofday_sec := 1000000;
     gettimeofday_usec := 250000;
     GetTickCount := 5000;
     RegCreateKeyExA_status := key_status;
     getenv_DISPLAY := env_display;
     XOpenDisplay := fun name => Some sample_xdisplay;
     ini_ScreenDepth := depth;
     ini_DesktopDoubleBuffered := false;
     glXQueryExtension := false;
     glXChooseVisual := None;
     XCreateColormap := 0;
     XCreateFontCursor := 71;
     XCreateWindow := 4194305;
     XAllocSizeHints := Some blk_size_hints;
     XAllocWMHints := wm_hints;
     XAllocClassHint := Some blk_class_hint;
     XInternAtom_WM_DELETE_WINDOW := 230;
     X11DRV_GDI_Initialize := true |}.

Definition sample_env : environment := make_env 0 0 (Some blk_wm_hints) (Some ":0").

Definition sample_world : world :=
  {| Options := mkOptions (Some ":1") true (Some "800x600") false;
     registry := {[ "display" := ":0.0" ]};
     display := None;
     screen := 0;
     visual := 0;
     screen_width := 0;
     screen_height := 0;
     screen_depth := 0;
     root_window := 0;
     X11DRV_server_startticks := 0;
     keyboard_state := mkXKeyboardState 0 0 0 0 0 0 [];
     WND_Driver_set := false;
     OwningThread := 0;
     wine_tsx11_lock := lk_extern 1;
     wine_tsx11_unlock := lk_extern 2;
     old_tsx11_lock := lk_null;
     old_tsx11_unlock := lk_null;
     wine_errno_location := fn_extern (fun tid => 1000 + 8 * tid);
     wine_h_errno_location := fn_extern (fun tid => 1004 + 8 * tid);
     old_errno_location := fn_null;
     old_h_errno_location := fn_null;
     server := sample_server |}.

(** ** Steps taken while the driver is ready

    Between attach and detach the driver serves the screen saver calls, and
    other clients of the server change the keyboard settings as they like. *)

Inductive ready_step :=
| keyboard_changed (f : XKeyboardState -> XKeyboardState)
| call_GetScreenSaveActive
| call_SetScreenSaveActive (bActivate : bool)
| call_GetScreenSaveTimeout
| call_SetScreenSaveTimeout (nTimeout : Z).

Definition ready_step_run (s : ready_step) : M unit :=
  match s with
  | keyboard_changed f =>
      modify_server (fun srv => set_srv_keyboard (f (srv_keyboard srv)) srv)
  | call_GetScreenSaveActive => X11DRV_GetScreenSaveActive;; mret tt
  | call_SetScreenSaveActive b => X11DRV_SetScreenSaveActive b
  | call_GetScreenSaveTimeout => X11DRV_GetScreenSaveTimeout;; mret tt
  | call_SetScreenSaveTimeout n => X11DRV_SetScreenSaveTimeout n
  end.

Fixpoint ready_run (steps : list ready_step) : M unit :=
  match steps with
  | [] => mret tt
  | s :: rest => ready_step_run s;; ready_run rest
  end.

(** ** Readings of a list of events *)

Definition message_of (e : event) : option message :=
  match e with
  | EV_ERR m | EV_MESSAGE m => Some m
  | _ => None
  end.

Definition messages (evs : list event) : list message := omap message_of evs.

Definition is_diagnostic (e : event) : bool :=
  match e with
  | EV_ERR _ | EV_MESSAGE _ => true
  | _ => false
  end.

(** The timeouts handed to XSetScreenSaver. *)
Definition sent_timeouts (evs : list event) : list Z :=
  omap (fun e => match e with EV_XSetScreenSaver t _ _ _ => Some t | _ => None end) evs.

(** Position and size of the windows that were created. *)
Definition created_windows (evs : list event) : list (Z * Z * Z * Z) :=
  omap (fun e => match e with
                 | EV_XCreateWindow _ x y width height _ _ _ _ _ _ => Some (x, y, width, height)
                 | _ => None
                 end) evs.

(** The pointers handed to XFree. *)
Definition freed (evs : list event) : list (option xblock) :=
  omap (fun e => match e with EV_XFree p => Some p | _ => None end) evs.

(** The names XOpenDisplay was called with. *)
Definition connection_attempts (evs : list event) : list (option string) :=
  omap (fun e => match e with EV_XOpenDisplay n => Some n | _ => None end) evs.

(** The values written to the registry under a name. *)
Definition written_back (name : string) (evs : list event) : list string :=
  omap (fun e => match e with
                 | EV_RegSetValueExA n v =>
                     if String.eqb (value_name n) (value_name name) then Some v else None
                 | _ => None
                 end) evs.

(** What the scan of XParseGeometry finds in the geometry string for each
    field, if anything. *)
Definition token (bit : Z) (field : geometry_scan -> Z) (geometry : string) : option Z :=
  match XParseGeometry_scan geometry with
  | Some g => if has_flag (scan_mask g) bit then Some (field g) else None
  | None => None
  end.

Definition width_token := token X11.WidthValue tempWidth.
Definition height_token := token X11.HeightValue tempHeight.
Definition x_token := token X11.XValue tempX.
Definition y_token := token X11.YValue tempY.


Definition faulted {A} (o : outcome A) : bool :=
  match o with
  | Fault => true
  | _ => false
  end.

(** [evs] ends with the events [last]. *)
Definition ends_with (last evs : list event) : Prop :=
  exists before, evs = (before ++ last)%list.

(** The world in which process_attach calls setup_options. *)
Definition before_options (E : environment) (w : world) : world :=
  final (get_server_startup E (set_WND_Driver_set true w)).

(** A display address of 262 bytes. *)
Definition long_display : string :=
  String.append (String.concat "" (repeat "host." 52)) ":0".

(** The world once the sample attach has run. *)
Definition ready_world : world := final (process_attach sample_env sample_world).

(** ** Further readings *)

(** What a query with the 256 byte buffer of setup_options gets to see of a
    value of the registry: nothing, when the value is missing or too long. *)
Definition readable (reg : gmap string string) (name : string) : option string :=
  match reg !! value_name name with
  | Some data => if strlen data + 1 <=? sizeof_buffer then Some data else None
  | None => None
  end.

(** The status codes handed to ExitProcess. *)
Definition exit_codes (evs : list event) : list Z :=
  omap (fun e => match e with EV_ExitProcess s => Some s | _ => None end) evs.

(** The size hints handed to XSetWMProperties. *)
Definition size_hints_set (evs : list event) : list XSizeHints :=
  omap (fun e => match e with
                 | EV_XSetWMProperties _ _ sh _ _ => Some sh
                 | _ => None
                 end) evs.

(** Parent, depth, visual, value mask and colormap of the windows created. *)
Definition window_requests (evs : list event) : list (Z * Z * Z * Z * option Z) :=
  omap (fun e => match e with
                 | EV_XCreateWindow parent _ _ _ _ _ depth _ vis valuemask attr =>
                     Some (parent, depth, vis, valuemask, wa_colormap attr)
                 | _ => None
                 end) evs.

(** The address that competes with a persisted one: the command line's if
    there is one, else the one of the environment. *)
Definition supplied_display (E : environment) (w : world) : option string :=
  match Options_display (Options w) with
  | Some B => Some B
  | None => getenv_DISPLAY E
  end.

(** The start of a later run of the program without options on the command
    line: the registry is what the earlier run left. *)
Definition later_run (w : world) : world :=
  set_Options (mkOptions None false None (Options_synchronous (Options w))) w.

(** The visual create_desktop asks GLX for, when it asks: in a build with
    OpenGL, on a display with the GLX extension, with DesktopDoubleBuffered
    set in wine.ini. *)
Definition asks_glx (E : environment) : bool :=
  HAVE_OPENGL E && glXQueryExtension E && ini_DesktopDoubleBuffered E.

(** An environment built with OpenGL in which the desktop is to be double
    buffered; [vi] is what glXChooseVisual answers. *)
Definition glx_env (vi : option XVisualInfo) : environment :=
  {| NO_REENTRANT_X11 := false;
     perrno := 4096;
     ph_errno := 4100;
     HAVE_OPENGL := true;
     HAVE_LIBXXF86VM := false;
     argv0 := "wine";
     IS_OPTION_TRUE := option_true;
     IS_OPTION_FALSE := option_false;
     gettimeofday_sec := 1000000;
     gettimeofday_usec := 250000;
     GetTickCount := 5000;
     RegCreateKeyExA_status := 0;
     getenv_DISPLAY := Some ":0";
     XOpenDisplay := fun name => Some sample_xdisplay;
     ini_ScreenDepth := 16;
     ini_DesktopDoubleBuffered := true;
     glXQueryExtension := true;
     glXChooseVisual := vi;
     XCreateColormap := 90;
     XCreateFontCursor := 71;
     XCreateWindow := 4194305;
     XAllocSizeHints := Some blk_size_hints;
     XAllocWMHints := Some blk_wm_hints;
     XAllocClassHint := Some blk_class_hint;
     XInternAtom_WM_DELETE_WINDOW := 230;
     X11DRV_GDI_Initialize := true |}.

(** The fields that create_desktop assigns, taken from [w'], on top of [w]. *)
Definition desktop_fields_from (w' w : world) : world :=
  set_root_window (root_window w')
    (set_screen_depth (screen_depth w')
       (set_screen (screen w')
          (set_visual (visual w')
             (set_screen_height (screen_height w')
                (set_screen_width (screen_width w') w))))).

(** The depth of wine.ini is one that the screen lists. *)
Definition depth_listed (E : environment) (d : xdisplay) : bool :=
  existsb (fun x => to_uint x =? to_uint (ini_ScreenDepth E)) (ListDepths d).

(** Nothing stands in the way of create_desktop: GLX, if asked, has a
    visual, and the three hint structures can be allocated. *)
Definition desktop_ok (E : environment) : bool :=
  negb (asks_glx E && is_NULL (glXChooseVisual E))
  && negb (is_NULL (XAllocSizeHints E) || is_NULL (XAllocWMHints E)
           || is_NULL (XAllocClassHint E)).

(** The events of process_attach between the resolution of the options
    and the creation of the desktop window, on the display [d]. *)
Definition connection_events (E : environment) (name : option string)
    (synchronous : bool) (d : xdisplay) : list event :=
  [EV_XOpenDisplay name; EV_fcntl_close_on_exec (ConnectionNumber d)]
  ++ (if to_uint (ini_ScreenDepth E) =? 0 then []
      else [EV_XListDepths; EV_XFree (Some blk_depth_list)])
  ++ [EV_XOpenIM]
  ++ (if synchronous then [EV_XSetErrorHandler] else []).

(** The events of process_attach after the desktop window. *)
Definition subsystem_events (E : environment) : list event :=
  [EV_X11DRV_GDI_Initialize; EV_XGetKeyboardControl; EV_X11DRV_EVENT_Init]
  ++ (if HAVE_LIBXXF86VM E then [EV_X11DRV_XF86VM_Init] else [])
  ++ [EV_LoadLibrary16 "display"].

(** [E] with another answer of XOpenDisplay. *)
Definition with_XOpenDisplay (f : option string -> option xdisplay)
    (E : environment) : environment :=
  mkEnvironment (NO_REENTRANT_X11 E) (perrno E) (ph_errno E) (HAVE_OPENGL E)
    (HAVE_LIBXXF86VM E) (argv0 E) (IS_OPTION_TRUE E) (IS_OPTION_FALSE E)
    (gettimeofday_sec E) (gettimeofday_usec E) (GetTickCount E)
    (RegCreateKeyExA_status E) (getenv_DISPLAY E) f
    (ini_ScreenDepth E) (ini_DesktopDoubleBuffered E) (glXQueryExtension E)
    (glXChooseVisual E) (XCreateColormap E) (XCreateFontCursor E)
    (XCreateWindow E) (XAllocSizeHints E) (XAllocWMHints E)
    (XAllocClassHint E) (XInternAtom_WM_DELETE_WINDOW E)
    (X11DRV_GDI_Initialize E).

(** ** Geometry strings as they are written

    [=][<width>[{xX}<height>]][{+-}<xoffset>[{+-}<yoffset>]], which has the
    strings of the X documentation,
    [=][<width>{xX}<height>][{+-}<xoffset>{+-}<yoffset>], among its own.
    This says what a string is made of without a look at how XParseGeometry
    reads it: the fields that are there, each a row of decimal digits, and
    the number the digits denote. *)

Inductive digit := D0 | D1 | D2 | D3 | D4 | D5 | D6 | D7 | D8 | D9.

Definition digit_char (d : digit) : ascii :=
  match d with
  | D0 => "0" | D1 => "1" | D2 => "2" | D3 => "3" | D4 => "4"
  | D5 => "5" | D6 => "6" | D7 => "7" | D8 => "8" | D9 => "9"
  end%char.

Definition digit_Z (d : digit) : Z :=
  match d with
  | D0 => 0 | D1 => 1 | D2 => 2 | D3 => 3 | D4 => 4
  | D5 => 5 | D6 => 6 | D7 => 7 | D8 => 8 | D9 => 9
  end.

(** The number a row of decimal digits denotes, most significant first. *)
Definition decimal_from (n : Z) (ds : list digit) : Z :=
  fold_left (fun n d => n * 10 + digit_Z d) ds n.

Definition decimal (ds : list digit) : Z := decimal_from 0 ds.

(** The digits written out, followed by [rest]. *)
Fixpoint digits_then (ds : list digit) (rest : string) : string :=
  match ds with
  | [] => rest
  | d :: ds' => String (digit_char d) (digits_then ds' rest)
  end.

(** The fields of a geometry string.  The height comes with the letter it
    is written with ([true] for the capital X), an offset with its sign
    ([true] for -). *)
Record geometry_spec := mkSpec {
  spec_equals : bool;
  spec_width : option (list digit);
  spec_height : option (bool * list digit);
  spec_xoffset : option (bool * list digit);
  spec_yoffset : option (bool * list digit)
}.

Definition write_height (h : option (bool * list digit)) (rest : string) : string :=
  match h with
  | Some (capital, ds) => String (if capital then "X" else "x")%char (digits_then ds rest)
  | None => rest
  end.

Definition write_offset (o : option (bool * list digit)) (rest : string) : string :=
  match o with
  | Some (negative, ds) => String (if negative then "-" else "+")%char (digits_then ds rest)
  | None => rest
  end.

(** The string with these fields. *)
Definition write_geometry (g : geometry_spec) : string :=
  (if spec_equals g then String "="%char else id)
    (digits_then (default [] (spec_width g))
       (write_height (spec_height g)
          (write_offset (spec_xoffset g)
             (write_offset (spec_yoffset g) EmptyString)))).

(** A number has a digit and fits an [int]. *)
Definition number_ok (ds : list digit) : bool :=
  negb (Nat.eqb (length ds) 0) && (decimal ds <? 2 ^ 31).

Definition option_ok {A} (ok : A -> bool) (o : option A) : bool :=
  match o with
  | Some a => ok a
  | None => true
  end.

(** The fields make a geometry string: every number is one, a height
    written with the capital X follows a width, and a y offset follows an
    x offset. *)
Definition geometry_spec_ok (g : geometry_spec) : bool :=
  option_ok number_ok (spec_width g)
  && option_ok (fun h => number_ok (snd h) && (negb (fst h) || negb (is_NULL (spec_width g))))
       (spec_height g)
  && option_ok (fun o => number_ok (snd o)) (spec_xoffset g)
  && option_ok (fun o => number_ok (snd o) && negb (is_NULL (spec_xoffset g))) (spec_yoffset g).

Definition offset_value (o : bool * list digit) : Z :=
  if fst o then - decimal (snd o) else decimal (snd o).

(** The value of each field that is written. *)
Definition written_width (g : geometry_spec) : option Z := decimal <$> spec_width g.
Definition written_height (g : geometry_spec) : option Z :=
  (fun h => decimal (snd h)) <$> spec_height g.
Definition written_x (g : geometry_spec) : option Z := offset_value <$> spec_xoffset g.
Definition written_y (g : geometry_spec) : option Z := offset_value <$> spec_yoffset g.

(** The bits XParseGeometry is to return for these fields. *)
Definition written_mask (g : geometry_spec) : Z :=
  bit_or [if is_NULL (spec_width g) then 0 else X11.WidthValue;
          if is_NULL (spec_height g) then 0 else X11.HeightValue;
          match spec_xoffset g with
          | Some (negative, _) => Z.lor X11.XValue (if negative then X11.XNegative else 0)
          | None => 0
          end;
          match spec_yoffset g with
          | Some (negative, _) => Z.lor X11.YValue (if negative then X11.YNegative else 0)
          | None => 0
          end].

(** The string goes on with something that is not a digit. *)
Definition no_digit_ahead (s : string) : bool := negb (is_digit (first_char s)).

(** The visual that replaces the default one when process_attach creates
    the desktop window: the one of GLX, if there is a desktop geometry and
    create_desktop asks GLX. *)
Definition desktop_glx_visual (E : environment) (desktop : option string)
    : option XVisualInfo :=
  match desktop with
  | Some _ => if asks_glx E then glXChooseVisual E else None
  | None => None
  end.

(** [E] with DesktopDoubleBuffered turned off in wine.ini. *)
Definition single_buffered (E : environment) : environment :=
  mkEnvironment (NO_REENTRANT_X11 E) (perrno E) (ph_errno E) (HAVE_OPENGL E)
    (HAVE_LIBXXF86VM E) (argv0 E) (IS_OPTION_TRUE E) (IS_OPTION_FALSE E)
    (gettimeofday_sec E) (gettimeofday_usec E) (GetTickCount E)
    (RegCreateKeyExA_status E) (getenv_DISPLAY E) (XOpenDisplay E)
    (ini_ScreenDepth E) false (glXQueryExtension E)
    (glXChooseVisual E) (XCreateColormap E) (XCreateFontCursor E)
    (XCreateWindow E) (XAllocSizeHints E) (XAllocWMHints E)
    (XAllocClassHint E) (XInternAtom_WM_DELETE_WINDOW E)
    (X11DRV_GDI_Initialize E).

(** * Properties *)

Arguments setup_options : simpl never.
Arguments create_desktop : simpl never.
Arguments XParseGeometry : simpl never.

(** ** Integers and strings *)

Lemma string_compare_refl (s : string) : String.compare s s = Eq.
Proof.
  induction s as [| c s IH]; simpl; trivial.
  unfold Ascii.compare. now rewrite N.compare_refl.
Qed.

Lemma strcmp_zero (a b : string) : strcmp a b = 0 <-> a = b.
Proof.
  unfold strcmp. split.
  - destruct (String.compare a b) eqn:Hc; try discriminate.
    intros _. now apply String.compare_eq_iff.
  - intros ->. now rewrite string_compare_refl.
Qed.

Lemma strcmp_differ (a b : string) : a <> b -> negb (strcmp a b =? 0) = true.
Proof.
  intros Hne. apply negb_true_iff, Z.eqb_neq. intros H. now apply strcmp_zero in H.
Qed.

Lemma to_uint_to_int (z : Z) : to_uint (to_int z) = to_uint z.
Proof.
  unfold to_int, to_uint.
  destruct (z mod 2 ^ 32 <? 2 ^ 31).
  - apply Z.mod_mod. lia.
  - rewrite <- (Z.mod_add _ 1) by lia.
    replace (z mod 2 ^ 32 - 2 ^ 32 + 1 * 2 ^ 32) with (z mod 2 ^ 32) by lia.
    apply Z.mod_mod. lia.
Qed.


(** ** Running a routine *)

Ltac mrun :=
  cbv beta iota zeta delta
    [mbind M_bind mret M_ret bind ret emit get modify fault ExitProcess ERR
     MESSAGE when the_display modify_Options modify_server];
  cbn [events result final].

Ltac mrun_in H :=
  cbv beta iota zeta delta
    [mbind M_bind mret M_ret bind ret emit get modify fault ExitProcess ERR
     MESSAGE when the_display modify_Options modify_server] in H;
  cbn [events result final] in H.

Lemma bind_Normal {A B} (m : M A) (k : A -> M B) (w : world) (a : A) :
  result (m w) = Normal a ->
  bind m k w =
    mkRun (events (m w) ++ events (k a (final (m w))))
      (result (k a (final (m w)))) (final (k a (final (m w)))).
Proof.
  unfold bind. destruct (m w) as [evs res w1]. cbn [result events final].
  intros ->. now destruct (k a w1).
Qed.

Lemma bind_Exited {A B} (m : M A) (k : A -> M B) (w : world) (s : Z) :
  result (m w) = Exited s ->
  bind m k w = mkRun (events (m w)) (Exited s) (final (m w)).
Proof.
  unfold bind. destruct (m w) as [evs res w1]. cbn [result events final].
  now intros ->.
Qed.

Lemma bind_Fault {A B} (m : M A) (k : A -> M B) (w : world) :
  result (m w) = Fault ->
  bind m k w = mkRun (events (m w)) Fault (final (m w)).
Proof.
  unfold bind. destruct (m w) as [evs res w1]. cbn [result events final].
  now intros ->.
Qed.

(** ** The screen saver *)

Lemma GetScreenSaveActive_result (w : world) (d : xdisplay) :
  display w = Some d ->
  result (X11DRV_GetScreenSaveActive w) = Normal (negb (srv_timeout (server w) =? 0)).
Proof.
  intros Hd. unfold X11DRV_GetScreenSaveActive, TSXGetScreenSaver.
  mrun. rewrite Hd. reflexivity.
Qed.

Lemma SetScreenSaveActive_run (b : bool) (w : world) (d : xdisplay) :
  display w = Some d ->
  X11DRV_SetScreenSaveActive b w =
    mkRun [if b then EV_XActivateScreenSaver else EV_XResetScreenSaver] (Normal tt)
      (set_server (set_srv_saver_on b (server w)) w).
Proof.
  intros Hd. unfold X11DRV_SetScreenSaveActive.
  destruct b; unfold TSXActivateScreenSaver, TSXResetScreenSaver; mrun;
    rewrite Hd; reflexivity.
Qed.

Lemma SetScreenSaveTimeout_run (n : Z) (w : world) (d : xdisplay) :
  display w = Some d ->
  X11DRV_SetScreenSaveTimeout n w =
    mkRun [EV_XSetScreenSaver (Z.min n 32767) 60 X11.DefaultBlanking X11.DefaultExposures]
      (Normal tt)
      (set_server (srv_SetScreenSaver (Z.min n 32767) 60 X11.DefaultBlanking
                     X11.DefaultExposures (server w)) w).
Proof.
  intros Hd. unfold X11DRV_SetScreenSaveTimeout, TSXSetScreenSaver.
  replace (if n >? 32767 then 32767 else n) with (Z.min n 32767)
    by (destruct (Z.gtb_spec n 32767); lia).
  mrun. rewrite Hd. reflexivity.
Qed.

(** A step taken while ready leaves the connection and the snapshot of the
    keyboard settings alone, and ends normally. *)
Lemma ready_step_frame (s : ready_step) (w : world) (d : xdisplay) :
  display w = Some d ->
  let r := ready_step_run s w in
  result r = Normal tt /\ display (final r) = Some d
  /\ keyboard_state (final r) = keyboard_state w.
Proof.
  intros Hd. destruct s; simpl.
  - mrun. auto.
  - unfold X11DRV_GetScreenSaveActive, TSXGetScreenSaver. mrun. rewrite Hd. auto.
  - rewrite (SetScreenSaveActive_run _ _ _ Hd). auto.
  - unfold X11DRV_GetScreenSaveTimeout, TSXGetScreenSaver. mrun. rewrite Hd. auto.
  - rewrite (SetScreenSaveTimeout_run _ _ _ Hd). auto.
Qed.

Lemma ready_run_frame (steps : list ready_step) (w : world) (d : xdisplay) :
  display w = Some d ->
  let r := ready_run steps w in
  result r = Normal tt /\ display (final r) = Some d
  /\ keyboard_state (final r) = keyboard_state w.
Proof.
  revert w. induction steps as [| s steps IH]; intros w Hd.
  - simpl. auto.
  - destruct (ready_step_frame s w d Hd) as (Hr & Hd' & Hk).
    destruct (IH _ Hd') as (Hr2 & Hd2 & Hk2).
    cbn [ready_run]. unfold mbind, M_bind. rewrite (bind_Normal _ _ _ _ Hr).
    cbn [result final]. rewrite Hd2, Hk2. auto.
Qed.

Lemma ready_run_activate_timeout (calls : list bool) (w : world) (d : xdisplay) :
  display w = Some d ->
  srv_timeout (server (final (ready_run (map call_SetScreenSaveActive calls) w)))
  = srv_timeout (server w).
Proof.
  revert w. induction calls as [| b calls IH]; intros w Hd.
  - reflexivity.
  - cbn [map ready_run ready_step_run]. unfold mbind, M_bind.
    rewrite (bind_Normal _ _ _ tt) by now rewrite (SetScreenSaveActive_run _ _ _ Hd).
    cbn [final]. rewrite (SetScreenSaveActive_run _ _ _ Hd). cbn [final].
    rewrite IH by exact Hd. reflexivity.
Qed.

(** C7, as amended.  X11DRV_SetScreenSaveTimeout hands min(n, 32767) to
    XSetScreenSaver: the value is never above 32767, it lies in 0..32767
    whenever n is not negative, and a negative n goes through unchanged. *)
Theorem SetScreenSaveTimeout_upper_clamp (n : Z) (w : world) (d : xdisplay) :
  display w = Some d ->
  let r := X11DRV_SetScreenSaveTimeout n w in
  result r = Normal tt
  /\ sent_timeouts (events r) = [Z.min n 32767]
  /\ Z.min n 32767 <= 32767
  /\ (0 <= n -> 0 <= Z.min n 32767 <= 32767)
  /\ (n < 0 -> Z.min n 32767 = n).
Proof.
  intros Hd. rewrite (SetScreenSaveTimeout_run _ _ _ Hd). simpl.
  repeat split; lia.
Qed.

Lemma SetScreenSaveTimeout_upper_clamp_witness :
  result (X11DRV_SetScreenSaveTimeout 40000 ready_world) = Normal tt
  /\ sent_timeouts (events (X11DRV_SetScreenSaveTimeout 40000 ready_world)) = [32767].
Proof.
  destruct (SetScreenSaveTimeout_upper_clamp 40000 ready_world sample_xdisplay)
    as (H1 & H2 & _).
  - reflexivity.
  - split; [exact H1 | exact H2].
Defined.

(** C7, as stated, fails: a negative timeout reaches XSetScreenSaver. *)
Lemma SetScreenSaveTimeout_negative_sent :
  sent_timeouts (events (X11DRV_SetScreenSaveTimeout (-1) ready_world)) = [-1]
  /\ (-1 <? 0) = true.
Proof. split; reflexivity. Qed.

(** C10.  X11DRV_GetScreenSaveActive answers from the timeout alone: after
    any steps taken while ready it returns true exactly when the timeout the
    server holds is not zero, the calls of X11DRV_SetScreenSaveActive leave
    that timeout as it was, and with a timeout of zero the answer is false. *)
Theorem GetScreenSaveActive_from_timeout
    (steps : list ready_step) (w : world) (d : xdisplay) :
  display w = Some d ->
  let w' := final (ready_run steps w) in
  (exists b, result (X11DRV_GetScreenSaveActive w') = Normal b
             /\ (b = true <-> srv_timeout (server w') <> 0))
  /\ (srv_timeout (server w') = 0 ->
      result (X11DRV_GetScreenSaveActive w') = Normal false)
  /\ (forall calls, steps = map call_SetScreenSaveActive calls ->
      srv_timeout (server w') = srv_timeout (server w)).
Proof.
  intros Hd w'.
  destruct (ready_run_frame steps w d Hd) as (_ & Hd' & _). fold w' in Hd'.
  rewrite (GetScreenSaveActive_result w' d Hd').
  split; [| split].
  - eexists. split; [reflexivity |].
    rewrite negb_true_iff, Z.eqb_neq. tauto.
  - intros ->. reflexivity.
  - intros calls ->. now apply (ready_run_activate_timeout calls w d).
Qed.

Lemma GetScreenSaveActive_from_timeout_witness :
  result (X11DRV_GetScreenSaveActive
            (final (ready_run [call_SetScreenSaveTimeout 0; call_SetScreenSaveActive true]
                      ready_world)))
  = Normal false.
Proof.
  destruct (GetScreenSaveActive_from_timeout
              [call_SetScreenSaveTimeout 0; call_SetScreenSaveActive true]
              ready_world sample_xdisplay) as (_ & H & _).
  - reflexivity.
  - apply H. reflexivity.
Defined.

(** ** The desktop window *)

Example XParseGeometry_800x600 :
  XParseGeometry "800x600+10-20" 0 0 640 480 = (47, (10, -20, 800, 600)).
Proof. reflexivity. Qed.

Example XParseGeometry_offsets_only :
  XParseGeometry "+5+7" 0 0 640 480 = (3, (5, 7, 640, 480)).
Proof. reflexivity. Qed.

Example XParseGeometry_width_only :
  XParseGeometry "=1024" 0 0 640 480 = (4, (0, 0, 1024, 480)).
Proof. reflexivity. Qed.

Example XParseGeometry_malformed :
  XParseGeometry "800x600junk" 0 0 640 480 = (0, (0, 0, 640, 480)).
Proof. reflexivity. Qed.

Lemma XParseGeometry_tokens (geometry : string) (x y width height : Z) :
  snd (XParseGeometry geometry x y width height)
  = (default x (x_token geometry), default y (y_token geometry),
     default width (width_token geometry), default height (height_token geometry)).
Proof.
  unfold XParseGeometry, x_token, y_token, width_token, height_token, token.
  destruct (XParseGeometry_scan geometry) as [g |]; [| reflexivity].
  cbn [snd].
  destruct (has_flag (scan_mask g) X11.XValue), (has_flag (scan_mask g) X11.YValue),
    (has_flag (scan_mask g) X11.WidthValue), (has_flag (scan_mask g) X11.HeightValue);
    reflexivity.
Qed.

(** *** Written geometries are read as written *)

Lemma digit_char_is_digit (d : digit) : is_digit (digit_char d) = true.
Proof. destruct d; reflexivity. Qed.

Lemma digit_char_value (d : digit) : digit_value (digit_char d) = digit_Z d.
Proof. destruct d; reflexivity. Qed.

Lemma digit_Z_range (d : digit) : 0 <= digit_Z d <= 9.
Proof. destruct d; cbn; lia. Qed.

Lemma decimal_from_le (ds : list digit) (n : Z) : 0 <= n -> n <= decimal_from n ds.
Proof.
  revert n. induction ds as [| d ds IH]; intros n Hn; cbn; [lia |].
  pose proof (digit_Z_range d).
  specialize (IH (n * 10 + digit_Z d)). unfold decimal_from in IH. lia.
Qed.

Lemma read_digits_stop (n : Z) (s : string) :
  no_digit_ahead s = true -> read_digits n s = (n, s).
Proof.
  unfold no_digit_ahead. destruct s as [| c s]; [reflexivity |]. cbn.
  intros H. apply negb_true_iff in H. rewrite H. reflexivity.
Qed.

Lemma read_digits_written (ds : list digit) (n : Z) (rest : string) :
  0 <= n -> decimal_from n ds < 2 ^ 31 -> no_digit_ahead rest = true ->
  read_digits n (digits_then ds rest) = (decimal_from n ds, rest).
Proof.
  revert n. induction ds as [| d ds IH]; intros n Hn Hb Hrest.
  - apply read_digits_stop, Hrest.
  - cbn [digits_then read_digits]. rewrite digit_char_is_digit, digit_char_value.
    pose proof (digit_Z_range d).
    assert (Hle : n * 10 + digit_Z d <= decimal_from (n * 10 + digit_Z d) ds)
      by (apply decimal_from_le; lia).
    change (decimal_from n (d :: ds)) with (decimal_from (n * 10 + digit_Z d) ds) in *.
    assert (Hint : to_int (n * 10 + digit_Z d) = n * 10 + digit_Z d).
    { unfold to_int, to_uint. rewrite Z.mod_small by lia.
      destruct (_ <? _) eqn:Hc; [reflexivity | apply Z.ltb_ge in Hc; lia]. }
    rewrite Hint. apply IH; [lia | assumption | assumption].
Qed.

Lemma decimal_nonneg (ds : list digit) : 0 <= decimal ds.
Proof. apply (decimal_from_le ds 0). lia. Qed.

Lemma ReadInteger_written (d : digit) (ds : list digit) (rest : string) :
  decimal (d :: ds) < 2 ^ 31 -> no_digit_ahead rest = true ->
  ReadInteger (String (digit_char d) (digits_then ds rest)) = (decimal (d :: ds), rest).
Proof.
  intros Hb Hrest.
  pose proof (read_digits_written (d :: ds) 0 rest ltac:(lia) Hb Hrest) as H.
  cbn [digits_then] in H. unfold ReadInteger.
  replace (match String (digit_char d) (digits_then ds rest) with
           | String "+"%char s' => (1, s')
           | String "-"%char s' => (-1, s')
           | _ => (1, String (digit_char d) (digits_then ds rest))
           end) with (1, String (digit_char d) (digits_then ds rest))
    by (destruct d; reflexivity).
  rewrite H. reflexivity.
Qed.

Lemma length_digits_then (ds : list digit) (rest : string) :
  String.length (digits_then ds rest) = (length ds + String.length rest)%nat.
Proof. induction ds as [| d ds IH]; cbn; [reflexivity | now rewrite IH]. Qed.

Lemma same_position_written (c : ascii) (ds : list digit) (rest : string) :
  same_position (String c (digits_then ds rest)) rest = false.
Proof.
  unfold same_position. cbn [String.length]. rewrite length_digits_then.
  apply Nat.eqb_neq. lia.
Qed.

Lemma char_is_eqb (s : string) (k : ascii) : char_is s k = Ascii.eqb (first_char s) k.
Proof.
  unfold char_is. destruct (Ascii.eqb_spec (first_char s) k) as [H | H].
  - now apply bool_decide_eq_true.
  - now apply bool_decide_eq_false.
Qed.

Lemma digit_char_differs (d : digit) (k : ascii) :
  is_digit k = false -> Ascii.eqb (digit_char d) k = false.
Proof.
  intros H. destruct (Ascii.eqb_spec (digit_char d) k) as [<- |]; [| reflexivity].
  now rewrite digit_char_is_digit in H.
Qed.

Lemma to_uint_small (z : Z) : 0 <= z < 2 ^ 31 -> to_uint z = z.
Proof. intros H. unfold to_uint. apply Z.mod_small. lia. Qed.

Lemma to_int_minus (z : Z) : 0 <= z < 2 ^ 31 -> to_int (- z) = - z.
Proof.
  intros H. unfold to_int, to_uint.
  destruct (Z.eq_dec z 0) as [-> | Hz]; [reflexivity |].
  rewrite Z.mod_opp_l_nz by (rewrite ?Z.mod_small; lia).
  rewrite Z.mod_small by lia.
  destruct (_ <? _) eqn:Hc; [apply Z.ltb_lt in Hc; lia | lia].
Qed.

Lemma number_ok_cons (ds : list digit) :
  number_ok ds = true ->
  exists d ds', ds = d :: ds' /\ 0 <= decimal (d :: ds') < 2 ^ 31.
Proof.
  unfold number_ok. intros H. apply andb_prop in H as [Hn Hb].
  destruct ds as [| d ds']; [discriminate Hn |].
  exists d, ds'. split; [reflexivity |]. apply Z.ltb_lt in Hb.
  pose proof (decimal_nonneg (d :: ds')). lia.
Qed.

Ltac scan_step :=
  first
    [ rewrite ReadInteger_written by first [assumption | reflexivity | lia]
    | rewrite same_position_written
    | rewrite char_is_eqb
    | rewrite digit_char_differs by reflexivity
    | progress cbn [first_char digits_then Ascii.eqb Bool.eqb negb andb orb skip
                    mbind option_bind fst snd] ].

Lemma XParseGeometry_written (g : geometry_spec) (x y width height : Z) :
  geometry_spec_ok g = true ->
  XParseGeometry (write_geometry g) x y width height
  = (written_mask g,
     (default x (written_x g), default y (written_y g),
      default width (written_width g), default height (written_height g))).
Proof.
  destruct g as [equals wd ht xo yo].
  unfold geometry_spec_ok, write_geometry, written_mask, written_x, written_y,
    written_width, written_height, offset_value.
  cbn [spec_equals spec_width spec_height spec_xoffset spec_yoffset].
  intros Hok.
  destruct wd as [wd |], ht as [[capital ht] |], xo as [[xneg xo] |], yo as [[yneg yo] |];
    cbn [option_ok fst snd is_NULL negb andb orb] in Hok;
    rewrite ?andb_true_r in Hok;
    repeat match goal with
      | H : (_ && _) = true |- _ => apply andb_prop in H as [? ?]
      end;
    try discriminate;
    repeat match goal with
      | H : number_ok _ = true |- _ =>
          apply number_ok_cons in H as (? & ? & -> & ?)
      end.
  all: destruct equals; try destruct capital; try destruct xneg; try destruct yneg;
    try discriminate.
  all: unfold XParseGeometry, XParseGeometry_scan, write_height, write_offset.
  all: cbn [default id fmap option_fmap option_map].
  all: repeat scan_step.
  all: rewrite ?to_uint_small, ?to_int_minus by lia; reflexivity.
Qed.

Example write_geometry_full :
  write_geometry (mkSpec true (Some [D1; D0; D2; D4]) (Some (true, [D7; D6; D8]))
                    (Some (true, [D0])) (Some (false, [D5])))
  = "=1024X768-0+5".
Proof. reflexivity. Qed.

Example write_geometry_offsets :
  write_geometry (mkSpec false None None (Some (false, [D5])) (Some (false, [D7]))) = "+5+7".
Proof. reflexivity. Qed.

Ltac create_desktop_cases E geometry Hd :=
  unfold create_desktop; mrun; rewrite ?Hd;
  destruct (HAVE_OPENGL E); [destruct (glXQueryExtension E);
    [destruct (ini_DesktopDoubleBuffered E); [destruct (glXChooseVisual E) |] |] |];
  cbn [events result final];
  destruct (XParseGeometry geometry 0 0 640 480) as [pflags [[[px py] pwidth] pheight]] eqn:HP;
  cbn [events result final display set_screen_width set_screen_height set_visual
       set_screen set_screen_depth set_root_window]; rewrite ?Hd;
  cbn [events result final];
  destruct (XAllocSizeHints E), (XAllocWMHints E), (XAllocClassHint E);
  cbn [events result final is_NULL orb app].

(** create_desktop assigns the screen, the visual, the depth, the root
    window and the screen size, and nothing else. *)
Lemma create_desktop_frame (E : environment) (geometry : string) (w : world) :
  let r := create_desktop E geometry w in
  Options (final r) = Options w /\ registry (final r) = registry w
  /\ display (final r) = display w
  /\ keyboard_state (final r) = keyboard_state w
  /\ server (final r) = server w
  /\ wine_errno_location (final r) = wine_errno_location w
  /\ wine_h_errno_location (final r) = wine_h_errno_location w
  /\ old_errno_location (final r) = old_errno_location w
  /\ old_h_errno_location (final r) = old_h_errno_location w.
Proof.
  destruct (display w) as [d |] eqn:Hd;
    create_desktop_cases E geometry Hd; repeat split; try assumption.
Qed.

Lemma ends_with_here (evs : list event) : ends_with evs evs.
Proof. now exists []. Qed.

Lemma ends_with_cons (last evs : list event) (e : event) :
  ends_with last evs -> ends_with last (e :: evs).
Proof. intros [before ->]. now exists (e :: before). Qed.

Ltac ends_with := repeat first [exact (ends_with_here _) | apply ends_with_cons].

(** C5.  For every geometry string, given by the fields that are written in
    it, create_desktop takes 640 for the width (480 for the height) exactly
    when no width (height) is written; a field that is written replaces the
    default with the number its digits denote, also for x and y, and the
    values found this way are the recorded screen size and the position and
    size of the window that is created. *)
Theorem create_desktop_geometry
    (E : environment) (g : geometry_spec) (w : world) (d : xdisplay) :
  geometry_spec_ok g = true ->
  display w = Some d ->
  let r := create_desktop E (write_geometry g) w in
  faulted (result r) = false ->
  screen_width (final r) = default 640 (written_width g)
  /\ screen_height (final r) = default 480 (written_height g)
  /\ created_windows (events r)
     = [(default 0 (written_x g), default 0 (written_y g),
         default 640 (written_width g), default 480 (written_height g))].
Proof.
  intros Hok Hd.
  pose proof (XParseGeometry_written g 0 0 640 480 Hok) as HW.
  create_desktop_cases E (write_geometry g) Hd; try discriminate; intros _;
    injection HW as -> -> -> -> ->; repeat split.
Qed.

Lemma create_desktop_geometry_witness :
  let g := mkSpec false (Some [D8; D0; D0]) (Some (false, [D6; D0; D0]))
             (Some (false, [D1; D0])) (Some (true, [D2; D0])) in
  let r := create_desktop sample_env "800x600+10-20"
             (set_display (Some sample_xdisplay) sample_world) in
  write_geometry g = "800x600+10-20"
  /\ screen_width (final r) = 800 /\ screen_height (final r) = 600
  /\ created_windows (events r) = [(10, -20, 800, 600)].
Proof.
  split; [reflexivity |].
  apply (create_desktop_geometry sample_env
           (mkSpec false (Some [D8; D0; D0]) (Some (false, [D6; D0; D0]))
              (Some (false, [D1; D0])) (Some (true, [D2; D0])))
           (set_display (Some sample_xdisplay) sample_world) sample_xdisplay);
    reflexivity.
Defined.

Example create_desktop_default_size :
  let r := create_desktop sample_env "+5+7"
             (set_display (Some sample_xdisplay) sample_world) in
  width_token "+5+7" = None /\ height_token "+5+7" = None
  /\ screen_width (final r) = 640 /\ screen_height (final r) = 480
  /\ created_windows (events r) = [(5, 7, 640, 480)].
Proof. repeat split. Qed.

Example width_token_present : width_token "800x600" = Some 800.
Proof. reflexivity. Qed.

Example width_token_absent : width_token "+5+7" = None.
Proof. reflexivity. Qed.

Example height_token_absent : height_token "1024" = None.
Proof. reflexivity. Qed.

(** C8, as amended.  When one of the three hint structures cannot be
    allocated, create_desktop prints a message and leaves with status 1, and
    it hands nothing to XFree before that; when all three are allocated it
    releases the three of them after XSetWMProperties and XSetWMProtocols
    have used them. *)
Theorem create_desktop_hints
    (E : environment) (geometry : string) (w : world) (d : xdisplay) :
  display w = Some d ->
  let r := create_desktop E geometry w in
  faulted (result r) = false ->
  (is_NULL (XAllocSizeHints E) || is_NULL (XAllocWMHints E)
     || is_NULL (XAllocClassHint E) = true ->
   result r = Exited 1
   /\ ends_with [EV_MESSAGE MSG_not_enough_memory_for_hints; EV_ExitProcess 1] (events r)
   /\ freed (events r) = [])
  /\ (is_NULL (XAllocSizeHints E) || is_NULL (XAllocWMHints E)
       || is_NULL (XAllocClassHint E) = false ->
      result r = Normal tt
      /\ (exists sh wh ch,
           ends_with [EV_XSetWMProperties (XCreateWindow E) "Wine desktop" sh wh ch;
                      EV_XSetWMProtocols (XCreateWindow E) (XInternAtom_WM_DELETE_WINDOW E);
                      EV_XFree (XAllocSizeHints E); EV_XFree (XAllocWMHints E);
                      EV_XFree (XAllocClassHint E); EV_XMapWindow (XCreateWindow E)]
             (events r))
      /\ freed (events r)
         = [XAllocSizeHints E; XAllocWMHints E; XAllocClassHint E]).
Proof.
  intros Hd.
  create_desktop_cases E geometry Hd; try discriminate; intros _;
    (split; intros Hn; [try discriminate Hn | try discriminate Hn]);
    (split; [reflexivity | split; [| reflexivity]]);
    try (do 3 eexists); ends_with.
Qed.

Lemma create_desktop_hints_witness :
  let r := create_desktop sample_env "800x600"
             (set_display (Some sample_xdisplay) sample_world) in
  result r = Normal tt
  /\ freed (events r) = [Some blk_size_hints; Some blk_wm_hints; Some blk_class_hint].
Proof.
  destruct (create_desktop_hints sample_env "800x600"
              (set_display (Some sample_xdisplay) sample_world) sample_xdisplay)
    as [_ H]; [reflexivity | reflexivity |].
  destruct H as (H1 & _ & H3); [reflexivity |].
  split; [exact H1 | exact H3].
Defined.

(** C8, as stated, fails: the size hints are allocated, the WM hints are
    not, and the process leaves without a call of XFree. *)
Lemma create_desktop_exit_releases_nothing :
  let E := make_env 0 0 None (Some ":0") in
  let r := create_desktop E "800x600" (set_display (Some sample_xdisplay) sample_world) in
  XAllocSizeHints E = Some blk_size_hints
  /\ result r = Exited 1
  /\ freed (events r) = [].
Proof. repeat split. Qed.

(** ** Option resolution *)

Lemma value_name_display : value_name "display" = "display".
Proof. reflexivity. Qed.

Lemma value_name_managed : value_name "managed" = "managed".
Proof. reflexivity. Qed.

Lemma value_name_Desktop : value_name "Desktop" = "desktop".
Proof. reflexivity. Qed.

Lemma value_name_desktop : value_name "desktop" = "desktop".
Proof. reflexivity. Qed.

Ltac setup_options_run :=
  unfold setup_options, RegSetValueExA, RegQueryValueExA; mrun;
  rewrite ?value_name_display, ?value_name_managed, ?value_name_Desktop,
    ?value_name_desktop.

Ltac setup_options_step :=
  cbn [events result final Options registry set_Options set_registry
       Options_display Options_managed Options_desktopGeometry
       set_Options_display set_Options_managed set_Options_desktopGeometry
       is_NULL negb andb app] in *;
  rewrite ?lookup_insert_ne by discriminate.

(** Case analysis on a test that blocks the run and tests nothing itself. *)
Ltac split_test :=
  match goal with
  | |- context [match ?x with _ => _ end] =>
      lazymatch x with
      | context [match _ with _ => _ end] => fail
      | _ => destruct x eqn:?
      end
  end.

Ltac setup_options_cases :=
  setup_options_run; repeat (setup_options_step; split_test); setup_options_step.

(** A run of setup_options either ends normally, with a display address in
    Options and nothing but warnings and registry writes behind it, or it
    prints one diagnostic and leaves with status 1.  It assigns Options and
    the registry only. *)
Lemma setup_options_run_shape (E : environment) (w : world) :
  let r := setup_options E w in
  final r = set_registry (registry (final r)) (set_Options (Options (final r)) w)
  /\ (result r = Normal tt
      /\ is_Some (Options_display (Options (final r)))
      /\ created_windows (events r) = [] /\ connection_attempts (events r) = []
      \/ result r = Exited 1
         /\ exists m, events r = [m; EV_ExitProcess 1] /\ is_diagnostic m = true).
Proof.
  destruct w. setup_options_cases.
  all: split; [reflexivity |].
  all: try (left; repeat split; eauto; fail).
  all: try (right; split; [reflexivity |]; eexists; split; reflexivity).
  all: congruence.
Qed.

(** C2, as amended.  With the configuration key at hand, a persisted display
    address A that fits the 256 byte buffer of the query and a different
    address B from the command line, setup_options makes A the display in
    Options, prints the one warning that --display is ignored, and writes
    nothing back under the name: the registry still holds A. *)
Theorem setup_options_persisted_display_wins
    (E : environment) (w : world) (A B : string) :
  RegCreateKeyExA_status E = 0 ->
  registry w !! "display" = Some A ->
  strlen A + 1 <= sizeof_buffer ->
  Options_display (Options w) = Some B ->
  A <> B ->
  let r := setup_options E w in
  result r = Normal tt
  /\ Options_display (Options (final r)) = Some A
  /\ messages (events r) = [MSG_display_option_ignored (argv0 E) A]
  /\ written_back "display" (events r) = []
  /\ registry (final r) !! "display" = Some A.
Proof.
  intros Hkey Hreg Hfit Hopt Hne. destruct w. cbn [registry Options] in Hreg, Hopt.
  setup_options_run. rewrite Hkey. cbn [Z.eqb negb].
  setup_options_step. rewrite Hreg, (proj2 (Z.leb_le _ _) Hfit).
  setup_options_step. rewrite Hopt, (strcmp_differ A B Hne).
  repeat (setup_options_step; split_test); setup_options_step.
  all: repeat split; try reflexivity; try assumption.
Qed.

Lemma setup_options_persisted_display_wins_witness :
  let r := setup_options sample_env sample_world in
  result r = Normal tt
  /\ Options_display (Options (final r)) = Some ":0.0"
  /\ messages (events r) = [MSG_display_option_ignored "wine" ":0.0"]
  /\ written_back "display" (events r) = []
  /\ registry (final r) !! "display" = Some ":0.0".
Proof.
  apply (setup_options_persisted_display_wins sample_env sample_world ":0.0" ":1");
    [reflexivity | reflexivity | vm_compute; discriminate | reflexivity | discriminate].
Defined.

(** C2, as stated, fails.  A persisted address of 262 bytes does not fit
    the buffer, the query reports an error, and setup_options goes on as if
    nothing were persisted: the address of the command line becomes the
    display, no warning is printed, and the registry is overwritten.  And
    when the key cannot be created (here with ERROR_ACCESS_DENIED), all that
    happens is the error message and the exit. *)
Lemma setup_options_long_persisted_display :
  let w := set_registry {[ "display" := long_display ]} sample_world in
  let r := setup_options sample_env w in
  let r' := setup_options (make_env 5 0 (Some blk_wm_hints) (Some ":0")) sample_world in
  (registry w !! "display" = Some long_display
   /\ Options_display (Options w) = Some ":1"
   /\ long_display <> ":1"
   /\ Options_display (Options (final r)) = Some ":1"
   /\ messages (events r) = []
   /\ registry (final r) !! "display" = Some ":1")
  /\ (registry sample_world !! "display" = Some ":0.0"
      /\ result r' = Exited 1
      /\ Options_display (Options (final r')) = Some ":1"
      /\ messages (events r') = [MSG_cannot_create_key]).
Proof. vm_compute. repeat split. discriminate. Qed.

(** ** Attach *)

Ltac world_simpl :=
  cbn [events result final app
       Options registry display screen visual screen_width screen_height
       screen_depth root_window X11DRV_server_startticks keyboard_state
       WND_Driver_set OwningThread wine_tsx11_lock wine_tsx11_unlock
       old_tsx11_lock old_tsx11_unlock wine_errno_location
       wine_h_errno_location old_errno_location old_h_errno_location server
       set_Options set_registry set_display set_screen set_visual
       set_screen_width set_screen_height set_screen_depth set_root_window
       set_X11DRV_server_startticks set_keyboard_state set_WND_Driver_set
       set_OwningThread set_wine_tsx11_lock set_wine_tsx11_unlock
       set_old_tsx11_lock set_old_tsx11_unlock set_wine_errno_location
       set_wine_h_errno_location set_old_errno_location
       set_old_h_errno_location set_server
       Options_display Options_managed Options_desktopGeometry
       Options_synchronous set_Options_display set_Options_managed
       set_Options_desktopGeometry].

Ltac world_simpl_in H :=
  cbn [events result final app
       Options registry display screen visual screen_width screen_height
       screen_depth root_window X11DRV_server_startticks keyboard_state
       WND_Driver_set OwningThread wine_tsx11_lock wine_tsx11_unlock
       old_tsx11_lock old_tsx11_unlock wine_errno_location
       wine_h_errno_location old_errno_location old_h_errno_location server
       set_Options set_registry set_display set_screen set_visual
       set_screen_width set_screen_height set_screen_depth set_root_window
       set_X11DRV_server_startticks set_keyboard_state set_WND_Driver_set
       set_OwningThread set_wine_tsx11_lock set_wine_tsx11_unlock
       set_old_tsx11_lock set_old_tsx11_unlock set_wine_errno_location
       set_wine_h_errno_location set_old_errno_location
       set_old_h_errno_location set_server
       Options_display Options_managed Options_desktopGeometry
       Options_synchronous set_Options_display set_Options_managed
       set_Options_desktopGeometry] in H.

(** process_attach ends where setup_options ends, when that is an exit. *)
Lemma process_attach_exit_in_options (E : environment) (w : world) (s : Z) :
  let r0 := setup_options E (before_options E w) in
  result r0 = Exited s ->
  process_attach E w = mkRun (events r0) (Exited s) (final r0).
Proof.
  unfold before_options, process_attach, get_server_startup. mrun.
  destruct (setup_options E _) as [evs0 res0 w2]. world_simpl.
  intros ->. reflexivity.
Qed.

Lemma setup_options_no_display (E : environment) (w : world) :
  registry w !! "display" = None ->
  Options_display (Options w) = None ->
  getenv_DISPLAY E = None ->
  let r := setup_options E w in
  result r = Exited 1
  /\ exists m, events r = [m; EV_ExitProcess 1] /\ is_diagnostic m = true
     /\ (RegCreateKeyExA_status E = 0 ->
         m = EV_MESSAGE (MSG_no_display_specified (argv0 E))).
Proof.
  intros Hreg Hopt Henv. destruct w. cbn [registry Options] in Hreg, Hopt.
  setup_options_run.
  destruct (RegCreateKeyExA_status E =? 0) eqn:Hkey; setup_options_step.
  - rewrite Hreg. setup_options_step. rewrite Hopt, Henv. setup_options_step.
    split; [reflexivity |]. eexists. repeat split.
  - split; [reflexivity |]. eexists. repeat split.
    intros H0. rewrite H0 in Hkey. discriminate.
Qed.

(** C4.  With no display address in the registry, none on the command line
    and none in the environment, process_attach prints a message and leaves
    with status 1 while it resolves the options; XOpenDisplay has not been
    called by then. *)
Theorem process_attach_no_display (E : environment) (w : world) :
  registry w !! "display" = None ->
  Options_display (Options w) = None ->
  getenv_DISPLAY E = None ->
  let r := process_attach E w in
  result r = Exited 1
  /\ (exists m, events r = [m; EV_ExitProcess 1] /\ is_diagnostic m = true
      /\ (RegCreateKeyExA_status E = 0 ->
          m = EV_MESSAGE (MSG_no_display_specified (argv0 E))))
  /\ connection_attempts (events r) = [].
Proof.
  intros Hreg Hopt Henv.
  destruct (setup_options_no_display E (before_options E w) Hreg Hopt Henv)
    as (Hres & m & Hev & Hdiag & Hm).
  cbv zeta. rewrite (process_attach_exit_in_options E w 1 Hres). world_simpl.
  split; [reflexivity |]. split.
  - exists m. auto.
  - rewrite Hev. destruct m; try discriminate Hdiag; reflexivity.
Qed.

Lemma process_attach_no_display_witness :
  let r := process_attach (make_env 0 0 (Some blk_wm_hints) None)
             (set_registry ∅ (set_Options (mkOptions None false None false) sample_world)) in
  result r = Exited 1
  /\ events r = [EV_MESSAGE (MSG_no_display_specified "wine"); EV_ExitProcess 1]
  /\ connection_attempts (events r) = [].
Proof.
  destruct (process_attach_no_display (make_env 0 0 (Some blk_wm_hints) None)
              (set_registry ∅ (set_Options (mkOptions None false None false) sample_world)))
    as (H1 & (m & Hev & _ & Hm) & H3); [reflexivity | reflexivity | reflexivity |].
  split; [exact H1 |]. split; [| exact H3].
  rewrite Hev, (Hm eq_refl). reflexivity.
Defined.


Ltac generalize_setup_options E :=
  match goal with
  | |- context [setup_options E ?w1] =>
      let Hs := fresh "Hs" in
      pose proof (setup_options_run_shape E w1) as Hs; cbv zeta in Hs;
      destruct (setup_options E w1) as [evs0 res0 w2];
      cbn [events result final] in Hs
  end.

Ltac generalize_create_desktop E :=
  match goal with
  | |- context [create_desktop E ?g ?w1] =>
      let Hc := fresh "Hc" in
      pose proof (create_desktop_frame E g w1) as Hc; cbv zeta in Hc;
      destruct (create_desktop E g w1) as [evs1 res1 w3];
      cbn [events result final] in Hc; destruct res1 as [[] | s1 |]
  end.

Ltac attach_step E :=
  world_simpl; cbv beta iota;
  first [generalize_create_desktop E | split_test].

(** What a run of process_attach that ends normally leaves behind. *)
Lemma process_attach_ready (E : environment) (w : world) :
  let r0 := setup_options E (before_options E w) in
  let r := process_attach E w in
  result r = Normal tt ->
  result r0 = Normal tt
  /\ Options (final r)
     = match Options_desktopGeometry (Options (final r0)) with
       | Some _ => set_Options_managed false (Options (final r0))
       | None => Options (final r0)
       end
  /\ keyboard_state (final r) = srv_keyboard (server w)
  /\ server (final r) = server w
  /\ is_Some (display (final r))
  /\ wine_errno_location (final r)
     = (if NO_REENTRANT_X11 E then fn_x11_errno_location else wine_errno_location w)
  /\ wine_h_errno_location (final r)
     = (if NO_REENTRANT_X11 E then fn_x11_h_errno_location else wine_h_errno_location w)
  /\ old_errno_location (final r)
     = (if NO_REENTRANT_X11 E then wine_errno_location w else old_errno_location w)
  /\ old_h_errno_location (final r)
     = (if NO_REENTRANT_X11 E then wine_h_errno_location w else old_h_errno_location w).
Proof.
  intros r0 r. subst r0.
  assert (Hgen : forall r', r' = r -> result r' = Normal tt ->
            result (setup_options E (before_options E w)) = Normal tt
            /\ Options (final r')
               = match Options_desktopGeometry
                         (Options (final (setup_options E (before_options E w)))) with
                 | Some _ =>
                     set_Options_managed false
                       (Options (final (setup_options E (before_options E w))))
                 | None => Options (final (setup_options E (before_options E w)))
                 end
            /\ keyboard_state (final r') = srv_keyboard (server w)
            /\ server (final r') = server w
            /\ is_Some (display (final r'))
            /\ wine_errno_location (final r')
               = (if NO_REENTRANT_X11 E then fn_x11_errno_location
                  else wine_errno_location w)
            /\ wine_h_errno_location (final r')
               = (if NO_REENTRANT_X11 E then fn_x11_h_errno_location
                  else wine_h_errno_location w)
            /\ old_errno_location (final r')
               = (if NO_REENTRANT_X11 E then wine_errno_location w
                  else old_errno_location w)
            /\ old_h_errno_location (final r')
               = (if NO_REENTRANT_X11 E then wine_h_errno_location w
                  else old_h_errno_location w)).
  2: { intros Hr. exact (Hgen r eq_refl Hr). }
  subst r. intros r'.
  unfold before_options, process_attach, get_server_startup. mrun.
  generalize_setup_options E.
  destruct Hs as [Hframe [(-> & _) | (-> & _)]];
    [| intros ->; world_simpl; discriminate].
  set (o := Options w2) in *. set (reg := registry w2) in *.
  clearbody o reg. subst w2.
  repeat attach_step E.
  all: intros ->; world_simpl; intros Hn; try discriminate Hn.
  all: try (destruct Hc as (Ho & Hreg & Hd & Hk & Hsrv & He1 & He2 & He3 & He4);
            world_simpl_in Ho; world_simpl_in Hreg; world_simpl_in Hd;
            world_simpl_in Hk; world_simpl_in Hsrv; world_simpl_in He1;
            world_simpl_in He2; world_simpl_in He3; world_simpl_in He4;
            rewrite ?Ho, ?Hreg, ?Hd, ?Hk, ?Hsrv, ?He1, ?He2, ?He3, ?He4).
  all: repeat split; eauto.
Qed.

(** C6.  Whatever the command line, the registry and the environment said
    about managed mode: when setup_options ends with a desktop geometry in
    Options, Options.managed is false once process_attach has completed. *)
Theorem process_attach_desktop_unmanaged (E : environment) (w : world) (g : string) :
  Options_desktopGeometry (Options (final (setup_options E (before_options E w))))
    = Some g ->
  result (process_attach E w) = Normal tt ->
  Options_managed (Options (final (process_attach E w))) = false.
Proof.
  intros Hg Hn. destruct (process_attach_ready E w Hn) as (_ & Ho & _).
  rewrite Ho, Hg. reflexivity.
Qed.

Lemma process_attach_desktop_unmanaged_witness :
  Options_managed (Options sample_world) = true
  /\ Options_managed (Options (final (process_attach sample_env sample_world))) = false.
Proof.
  split; [reflexivity |].
  apply (process_attach_desktop_unmanaged sample_env sample_world "800x600");
    reflexivity.
Defined.

(** Managed mode and a desktop both taken from the registry: the desktop
    wins all the same. *)
Example process_attach_persisted_managed_and_desktop :
  let w := set_registry {[ "display" := ":0"; "managed" := "y"; "desktop" := "640x480" ]}
             (set_Options (mkOptions None false None false) sample_world) in
  Options_managed (Options (final (setup_options sample_env (before_options sample_env w))))
    = true
  /\ Options (final (process_attach sample_env w))
     = mkOptions (Some ":0") false (Some "640x480") false.
Proof. split; reflexivity. Qed.

(** C9.  Whatever happens to the keyboard settings of the server while the
    driver is ready, process_detach asks the server to change key click
    percent, bell percent, bell pitch, bell duration and auto repeat mode
    to the values that XGetKeyboardControl reported during attach: the int
    fields are the same numbers and the two unsigned fields carry the same
    32 bits. *)
Theorem process_detach_restores_snapshot
    (E : environment) (w : world) (steps : list ready_step) :
  result (process_attach E w) = Normal tt ->
  let snapshot := srv_keyboard (server w) in
  let w' := final (ready_run steps (final (process_attach E w))) in
  result (process_detach E w') = Normal tt
  /\ exists values rest,
       events (process_detach E w')
       = EV_XChangeKeyboardControl
           (bit_or [X11.KBKeyClickPercent; X11.KBBellPercent; X11.KBBellPitch;
                    X11.KBBellDuration; X11.KBAutoRepeatMode]) values :: rest
       /\ kc_key_click_percent values = ks_key_click_percent snapshot
       /\ kc_bell_percent values = ks_bell_percent snapshot
       /\ to_uint (kc_bell_pitch values) = to_uint (ks_bell_pitch snapshot)
       /\ to_uint (kc_bell_duration values) = to_uint (ks_bell_duration snapshot)
       /\ kc_auto_repeat_mode values = ks_global_auto_repeat snapshot.
Proof.
  intros Hn snapshot w'.
  destruct (process_attach_ready E w Hn) as (_ & _ & Hk & _ & [d Hd] & _).
  destruct (ready_run_frame steps _ d Hd) as (_ & Hd' & Hk').
  fold w' in Hd', Hk'. rewrite Hk in Hk'.
  unfold process_detach. mrun. rewrite Hd', Hk'. fold snapshot.
  destruct (HAVE_LIBXXF86VM E), (NO_REENTRANT_X11 E); world_simpl.
  all: split; [reflexivity |]; do 2 eexists; split; [reflexivity |].
  all: cbn [kc_key_click_percent kc_bell_percent kc_bell_pitch kc_bell_duration
            kc_auto_repeat_mode]; rewrite !to_uint_to_int; repeat split.
Qed.

Lemma process_detach_restores_snapshot_witness :
  let changed k := mkXKeyboardState 100 0 0 0 0 0 (ks_auto_repeats k) in
  let w' := final (ready_run [keyboard_changed changed; call_SetScreenSaveTimeout 5]
                     (final (process_attach sample_env sample_world))) in
  srv_keyboard (server w') = mkXKeyboardState 100 0 0 0 0 0 (repeat 255 32)
  /\ exists rest,
       events (process_detach sample_env w')
       = EV_XChangeKeyboardControl 143 (mkXKeyboardControl 0 50 400 100 1) :: rest.
Proof.
  split; [reflexivity |].
  destruct (process_detach_restores_snapshot sample_env sample_world
              [keyboard_changed (fun k => mkXKeyboardState 100 0 0 0 0 0 (ks_auto_repeats k));
               call_SetScreenSaveTimeout 5])
    as (_ & values & rest & Hev & _); [reflexivity |].
  exists rest. rewrite Hev. vm_compute in Hev. injection Hev as <- _. reflexivity.
Defined.

(** ** The errno hooks *)

Lemma x11_errno_location_spec (fuel : nat) (E : environment) (w : world)
    (cur : thread_id) (f : thread_id -> addr) :
  old_errno_location w = fn_extern f ->
  x11_errno_location (S fuel) E w cur
  = Some (if OwningThread w =? cur then perrno E else f cur).
Proof.
  intros Hold. unfold x11_errno_location. cbn [call_errno_fn]. rewrite Hold.
  destruct (OwningThread w =? cur); [reflexivity | now destruct fuel].
Qed.

Lemma x11_h_errno_location_spec (fuel : nat) (E : environment) (w : world)
    (cur : thread_id) (g : thread_id -> addr) :
  old_h_errno_location w = fn_extern g ->
  x11_h_errno_location (S fuel) E w cur
  = Some (if OwningThread w =? cur then ph_errno E else g cur).
Proof.
  intros Hold. unfold x11_h_errno_location. cbn [call_errno_fn]. rewrite Hold.
  destruct (OwningThread w =? cur); [reflexivity | now destruct fuel].
Qed.

(** C1.  In a build with NO_REENTRANT_X11, once process_attach has put its
    hooks in the place of the location functions [f] and [g], and while a
    thread owns the critical section: a call of the errno hook by the owner
    yields the static errno of Xlib, a call by any other thread yields what
    [f] yields for that thread, and likewise for h_errno and [g]. *)
Theorem errno_hooks_redirect_owner
    (E : environment) (w : world) (f g : thread_id -> addr)
    (owner cur : thread_id) (fuel : nat) :
  NO_REENTRANT_X11 E = true ->
  wine_errno_location w = fn_extern f ->
  wine_h_errno_location w = fn_extern g ->
  result (process_attach E w) = Normal tt ->
  owner <> 0 ->
  let held := set_OwningThread owner (final (process_attach E w)) in
  call_errno_fn (S fuel) E held cur (wine_errno_location held)
    = Some (if cur =? owner then perrno E else f cur)
  /\ call_errno_fn (S fuel) E held cur (wine_h_errno_location held)
    = Some (if cur =? owner then ph_errno E else g cur).
Proof.
  intros Hbuild Hf Hg Hn _ held.
  destruct (process_attach_ready E w Hn)
    as (_ & _ & _ & _ & _ & He & Hhe & Hoe & Hohe).
  rewrite Hbuild in He, Hhe, Hoe, Hohe.
  assert (H1 : wine_errno_location held = fn_x11_errno_location) by exact He.
  assert (H2 : wine_h_errno_location held = fn_x11_h_errno_location) by exact Hhe.
  assert (H3 : old_errno_location held = fn_extern f) by (rewrite <- Hf; exact Hoe).
  assert (H4 : old_h_errno_location held = fn_extern g) by (rewrite <- Hg; exact Hohe).
  rewrite H1, H2.
  fold (x11_errno_location (S fuel) E held cur).
  fold (x11_h_errno_location (S fuel) E held cur).
  rewrite (x11_errno_location_spec _ _ _ _ f H3).
  rewrite (x11_h_errno_location_spec _ _ _ _ g H4).
  replace (OwningThread held) with owner by reflexivity.
  rewrite (Z.eqb_sym owner cur). split; reflexivity.
Qed.

Lemma errno_hooks_redirect_owner_witness :
  let held := set_OwningThread 7 (final (process_attach sample_env sample_world)) in
  (call_errno_fn 1 sample_env held 7 (wine_errno_location held) = Some 4096
   /\ call_errno_fn 1 sample_env held 7 (wine_h_errno_location held) = Some 4100)
  /\ (call_errno_fn 1 sample_env held 9 (wine_errno_location held) = Some 1072
      /\ call_errno_fn 1 sample_env held 9 (wine_h_errno_location held) = Some 1076).
Proof.
  split.
  - apply (errno_hooks_redirect_owner sample_env sample_world
             (fun tid => 1000 + 8 * tid) (fun tid => 1004 + 8 * tid) 7 7 0);
      first [reflexivity | discriminate].
  - apply (errno_hooks_redirect_owner sample_env sample_world
             (fun tid => 1000 + 8 * tid) (fun tid => 1004 + 8 * tid) 7 9 0);
      first [reflexivity | discriminate].
Defined.

(** ** The depth asked for in wine.ini *)




Lemma ends_with_app (last before evs : list event) :
  ends_with last evs -> ends_with last (before ++ evs)%list.
Proof. intros [b ->]. exists (before ++ b)%list. now rewrite app_assoc. Qed.




(** * Further properties *)

(** ** Option resolution, case by case *)

Ltac options_step :=
  cbn [events result final Options registry set_Options set_registry
       Options_display Options_managed Options_desktopGeometry
       Options_synchronous
       set_Options_display set_Options_managed set_Options_desktopGeometry
       is_NULL negb andb app];
  rewrite ?lookup_insert_ne by discriminate.

Ltac options_cases :=
  setup_options_run; repeat (options_step; split_test); options_step.

Ltac destruct_world w :=
  destruct w as [opts reg dpy scr vis sw sh sd rw ticks kbd drv owner
                 lk ulk olk oulk el hel oel ohel srv].

(** Case analysis that gives up a case as soon as the facts at hand
    contradict each other. *)
Ltac options_cases_pruned :=
  setup_options_run;
  repeat (options_step; split_test;
          try (cbn [negb andb is_NULL] in *; congruence));
  options_step.

Lemma strcmp_eqb (a b : string) : (strcmp a b =? 0) = String.eqb a b.
Proof.
  destruct (String.eqb_spec a b) as [-> | Hne].
  - apply Z.eqb_eq. now apply strcmp_zero.
  - apply Z.eqb_neq. intros H. now apply strcmp_zero in H.
Qed.

Lemma readable_lookup (reg : gmap string string) (name data : string) :
  readable reg name = Some data ->
  reg !! value_name name = Some data /\ (strlen data + 1 <=? sizeof_buffer) = true.
Proof.
  unfold readable. destruct (reg !! value_name name) as [v |]; [| discriminate].
  destruct (strlen v + 1 <=? sizeof_buffer) eqn:Hfit; [| discriminate].
  intros [= ->]. auto.
Qed.

Lemma setup_options_normal_run (E : environment) (w : world) :
  let r := setup_options E w in
  result r = Normal tt ->
  registry (final r) !! "display" = Options_display (Options (final r))
  /\ (Options_managed (Options (final r)) = true ->
      registry (final r) !! "managed" = Some "y")
  /\ (forall g, Options_desktopGeometry (Options (final r)) = Some g ->
      registry (final r) !! "desktop" = Some g)
  /\ Options_synchronous (Options (final r)) = Options_synchronous (Options w)
  /\ exit_codes (events r) = [].
Proof.
  intros r.
  assert (Hgen : forall r', r' = r -> result r' = Normal tt ->
    registry (final r') !! "display" = Options_display (Options (final r'))
    /\ (Options_managed (Options (final r')) = true ->
        registry (final r') !! "managed" = Some "y")
    /\ (forall g, Options_desktopGeometry (Options (final r')) = Some g ->
        registry (final r') !! "desktop" = Some g)
    /\ Options_synchronous (Options (final r')) = Options_synchronous (Options w)
    /\ exit_codes (events r') = []).
  2: { exact (Hgen r eq_refl). }
  subst r. intros r'. destruct_world w. options_cases.
  all: intros ->; options_step; intros Hn; try discriminate Hn.
  all: cbn [negb andb is_NULL] in *; try congruence.
  all: repeat split; intros; rewrite ?lookup_insert_ne by discriminate;
    rewrite ?lookup_insert_eq; try congruence.
Qed.

(** X1.  After a normal run the registry agrees with the options in force: the
    display address is the persisted one, a managed mode that is on is
    persisted as "y", and a desktop geometry is persisted as it stands. *)
Theorem setup_options_persists_what_it_resolved (E : environment) (w : world) :
  let r := setup_options E w in
  result r = Normal tt ->
  registry (final r) !! "display" = Options_display (Options (final r))
  /\ (Options_managed (Options (final r)) = true ->
      registry (final r) !! "managed" = Some "y")
  /\ (forall g, Options_desktopGeometry (Options (final r)) = Some g ->
      registry (final r) !! "desktop" = Some g).
Proof.
  intros r Hn. destruct (setup_options_normal_run E w Hn) as (H1 & H2 & H3 & _).
  auto.
Qed.

Lemma setup_options_persists_what_it_resolved_witness :
  let r := setup_options sample_env sample_world in
  registry (final r) !! "display" = Some ":0.0"
  /\ registry (final r) !! "managed" = Some "y"
  /\ registry (final r) !! "desktop" = Some "800x600".
Proof.
  destruct (setup_options_persists_what_it_resolved sample_env sample_world)
    as (H1 & H2 & H3); [reflexivity |].
  split; [exact H1 |]. split; [apply H2; reflexivity | apply H3; reflexivity].
Defined.

(** X2.  With nothing to read under "display", the address of the command line
    is taken, or else the one of the environment; it is written to the
    registry and no warning is printed. *)
Theorem setup_options_first_display_written_back
    (E : environment) (w : world) (c : string) :
  RegCreateKeyExA_status E = 0 ->
  readable (registry w) "display" = None ->
  supplied_display E w = Some c ->
  let r := setup_options E w in
  result r = Normal tt
  /\ Options_display (Options (final r)) = Some c
  /\ messages (events r) = []
  /\ written_back "display" (events r) = [c]
  /\ registry (final r) !! "display" = Some c.
Proof.
  intros Hkey Hread Hsup r.
  assert (Hgen : forall r', r' = r ->
    result r' = Normal tt
    /\ Options_display (Options (final r')) = Some c
    /\ messages (events r') = []
    /\ written_back "display" (events r') = [c]
    /\ registry (final r') !! "display" = Some c).
  2: { exact (Hgen r eq_refl). }
  subst r. intros r'. destruct_world w.
  unfold readable, supplied_display in *. cbn [registry Options] in *.
  rewrite value_name_display in Hread.
  setup_options_run. rewrite Hkey. cbn [Z.eqb negb].
  repeat (options_step; split_test;
          try (cbn [negb andb is_NULL] in *; congruence)); options_step.
  all: intros ->; options_step.
  all: repeat split; rewrite ?lookup_insert_ne by discriminate;
    rewrite ?lookup_insert_eq; try congruence.
  all: vm_compute; congruence.
Qed.

(** X3.  A persisted display address that can be read always wins, and a warning
    is printed exactly when the address it competes with differs from it:
    the one about --display for the command line, the one about $DISPLAY
    for the environment. *)
Theorem setup_options_warns_when_addresses_differ
    (E : environment) (w : world) (A : string) :
  RegCreateKeyExA_status E = 0 ->
  readable (registry w) "display" = Some A ->
  let r := setup_options E w in
  result r = Normal tt
  /\ Options_display (Options (final r)) = Some A
  /\ registry (final r) !! "display" = Some A
  /\ written_back "display" (events r) = []
  /\ messages (events r)
     = match Options_display (Options w), getenv_DISPLAY E with
       | Some B, _ =>
           if String.eqb A B then [] else [MSG_display_option_ignored (argv0 E) A]
       | None, Some D =>
           if String.eqb A D then [] else [MSG_DISPLAY_variable_ignored (argv0 E) A]
       | None, None => []
       end.
Proof.
  intros Hkey Hread r.
  assert (Hgen : forall r', r' = r ->
    result r' = Normal tt
    /\ Options_display (Options (final r')) = Some A
    /\ registry (final r') !! "display" = Some A
    /\ written_back "display" (events r') = []
    /\ messages (events r')
       = match Options_display (Options w), getenv_DISPLAY E with
         | Some B, _ =>
             if String.eqb A B then [] else [MSG_display_option_ignored (argv0 E) A]
         | None, Some D =>
             if String.eqb A D then [] else [MSG_DISPLAY_variable_ignored (argv0 E) A]
         | None, None => []
         end).
  2: { exact (Hgen r eq_refl). }
  subst r. intros r'. destruct_world w.
  apply readable_lookup in Hread. rewrite value_name_display in Hread.
  destruct Hread as [Hreg Hfit]. cbn [registry Options] in *.
  setup_options_run. rewrite Hkey. cbn [Z.eqb negb]. options_step.
  rewrite Hreg, Hfit.
  repeat (options_step; rewrite ?strcmp_eqb; split_test;
          try (cbn [negb andb is_NULL] in *; congruence)); options_step.
  all: intros ->; options_step.
  all: repeat split; rewrite ?lookup_insert_ne by discriminate; try congruence.
  all: vm_compute; congruence.
Qed.

Lemma setup_options_warns_when_addresses_differ_witness :
  let w := set_Options (mkOptions None false None false) sample_world in
  let r := setup_options (make_env 0 0 (Some blk_wm_hints) (Some ":7")) w in
  Options_display (Options (final r)) = Some ":0.0"
  /\ messages (events r) = [MSG_DISPLAY_variable_ignored "wine" ":0.0"].
Proof.
  destruct (setup_options_warns_when_addresses_differ
              (make_env 0 0 (Some blk_wm_hints) (Some ":7"))
              (set_Options (mkOptions None false None false) sample_world) ":0.0")
    as (_ & H2 & _ & _ & H5); [reflexivity | reflexivity |].
  split; [exact H2 | exact H5].
Defined.

(** X4.  A managed mode or a desktop geometry from the command line keeps the
    registry from being consulted for either: both options stay as they
    were given, and what is set is written to the registry. *)
Theorem setup_options_command_line_kept (E : environment) (w : world) :
  negb (Options_managed (Options w)) && is_NULL (Options_desktopGeometry (Options w))
    = false ->
  let r := setup_options E w in
  result r = Normal tt ->
  Options_managed (Options (final r)) = Options_managed (Options w)
  /\ Options_desktopGeometry (Options (final r)) = Options_desktopGeometry (Options w)
  /\ written_back "managed" (events r)
     = (if Options_managed (Options w) then ["y"] else [])
  /\ written_back "desktop" (events r)
     = match Options_desktopGeometry (Options w) with
       | Some g => [g]
       | None => []
       end.
Proof.
  intros Hcl r.
  assert (Hgen : forall r', r' = r -> result r' = Normal tt ->
    Options_managed (Options (final r')) = Options_managed (Options w)
    /\ Options_desktopGeometry (Options (final r'))
       = Options_desktopGeometry (Options w)
    /\ written_back "managed" (events r')
       = (if Options_managed (Options w) then ["y"] else [])
    /\ written_back "desktop" (events r')
       = match Options_desktopGeometry (Options w) with
         | Some g => [g]
         | None => []
         end).
  2: { exact (Hgen r eq_refl). }
  subst r. intros r'. destruct_world w. destruct opts as [od om og os].
  cbn [Options Options_managed Options_desktopGeometry] in *.
  setup_options_run.
  repeat (options_step; split_test;
          try (cbn [negb andb is_NULL] in *; congruence)); options_step.
  all: intros -> Hn; try discriminate Hn; options_step.
  all: cbn [negb andb is_NULL] in *; try congruence.
  all: repeat split; try congruence.
Qed.

Lemma setup_options_command_line_kept_witness :
  let w := set_registry {[ "display" := ":0"; "managed" := "n"; "desktop" := "640x480" ]}
             sample_world in
  let r := setup_options sample_env w in
  Options_managed (Options (final r)) = true
  /\ Options_desktopGeometry (Options (final r)) = Some "800x600"
  /\ written_back "managed" (events r) = ["y"]
  /\ written_back "desktop" (events r) = ["800x600"].
Proof.
  apply (setup_options_command_line_kept sample_env
           (set_registry {[ "display" := ":0"; "managed" := "n"; "desktop" := "640x480" ]}
              sample_world)); reflexivity.
Defined.

(** X5.  Without managed mode and desktop geometry on the command line, both
    come from the registry: managed mode is on when the first character of
    the value "managed" is a true character, and the value "Desktop" becomes
    the geometry unless its first character is a false character.  A value
    that cannot be read counts for nothing. *)
Theorem setup_options_from_registry (E : environment) (w : world) :
  Options_managed (Options w) = false ->
  Options_desktopGeometry (Options w) = None ->
  let r := setup_options E w in
  result r = Normal tt ->
  Options_managed (Options (final r))
  = match readable (registry w) "managed" with
    | Some m => IS_OPTION_TRUE E (first_char m)
    | None => false
    end
  /\ Options_desktopGeometry (Options (final r))
     = match readable (registry w) "Desktop" with
       | Some v => if IS_OPTION_FALSE E (first_char v) then None else Some v
       | None => None
       end.
Proof.
  intros Hm Hd r.
  assert (Hgen : forall r', r' = r -> result r' = Normal tt ->
    Options_managed (Options (final r'))
    = match readable (registry w) "managed" with
      | Some m => IS_OPTION_TRUE E (first_char m)
      | None => false
      end
    /\ Options_desktopGeometry (Options (final r'))
       = match readable (registry w) "Desktop" with
         | Some v => if IS_OPTION_FALSE E (first_char v) then None else Some v
         | None => None
         end).
  2: { exact (Hgen r eq_refl). }
  subst r. intros r'. destruct_world w. destruct opts as [od om og os].
  cbn [Options registry Options_managed Options_desktopGeometry] in *. subst om og.
  unfold readable. rewrite value_name_managed, value_name_Desktop.
  setup_options_run.
  repeat (options_step; split_test;
          try (cbn [negb andb is_NULL] in *; congruence)); options_step.
  all: intros -> Hn; try discriminate Hn; options_step.
  all: cbn [negb andb is_NULL] in *; try congruence.
  all: repeat split; try congruence.
Qed.

Lemma setup_options_from_registry_witness :
  let w := set_registry {[ "display" := ":0"; "managed" := "Yes"; "desktop" := "No" ]}
             (set_Options (mkOptions None false None false) sample_world) in
  let r := setup_options sample_env w in
  Options_managed (Options (final r)) = true
  /\ Options_desktopGeometry (Options (final r)) = None.
Proof.
  destruct (setup_options_from_registry sample_env
              (set_registry {[ "display" := ":0"; "managed" := "Yes"; "desktop" := "No" ]}
                 (set_Options (mkOptions None false None false) sample_world)))
    as [H1 H2]; [reflexivity | reflexivity | reflexivity |].
  split; [rewrite H1 | rewrite H2]; reflexivity.
Defined.

(** An empty value "Desktop" turns the desktop on, with the default size. *)
Example setup_options_empty_desktop_value :
  let w := set_registry {[ "display" := ":0"; "desktop" := "" ]}
             (set_Options (mkOptions None false None false) sample_world) in
  Options_desktopGeometry (Options (final (setup_options sample_env w))) = Some ""
  /\ created_windows (events (process_attach sample_env w)) = [(0, 0, 640, 480)].
Proof. split; reflexivity. Qed.

Lemma setup_options_first_display_written_back_witness :
  let w := set_registry ∅ sample_world in
  let r := setup_options sample_env w in
  Options_display (Options (final r)) = Some ":1"
  /\ written_back "display" (events r) = [":1"]
  /\ registry (final r) !! "display" = Some ":1".
Proof.
  destruct (setup_options_first_display_written_back sample_env
              (set_registry ∅ sample_world) ":1")
    as (_ & H2 & _ & H4 & H5); [reflexivity | reflexivity | reflexivity |].
  split; [exact H2 |]. split; [exact H4 | exact H5].
Defined.

(** X6.  What one run resolved is what a later run starts from, when that
    run has no options on its command line and finds the key with the
    values the earlier run left in it.  A display address that fits the 256
    byte buffer of the query is read back, and nothing is written under
    the name.  A desktop geometry that fits the buffer is read back unless
    it starts with a false character; one that does not fit is not read
    back, and the later run has no desktop.  Managed mode is read back from
    the "y" that was written. *)
Theorem setup_options_later_run_reads_back
    (E E' : environment) (w : world) (d : string) :
  result (setup_options E w) = Normal tt ->
  Options_display (Options (final (setup_options E w))) = Some d ->
  strlen d + 1 <= sizeof_buffer ->
  RegCreateKeyExA_status E' = 0 ->
  let first := final (setup_options E w) in
  let r' := setup_options E' (later_run first) in
  result r' = Normal tt
  /\ Options_display (Options (final r')) = Some d
  /\ written_back "display" (events r') = []
  /\ (forall g, Options_desktopGeometry (Options first) = Some g ->
      strlen g + 1 <= sizeof_buffer ->
      IS_OPTION_FALSE E' (first_char g) = false ->
      Options_desktopGeometry (Options (final r')) = Some g)
  /\ (forall g, Options_desktopGeometry (Options first) = Some g ->
      sizeof_buffer < strlen g + 1 ->
      Options_desktopGeometry (Options (final r')) = None)
  /\ (Options_managed (Options first) = true ->
      IS_OPTION_TRUE E' "y" = true ->
      Options_managed (Options (final r')) = true).
Proof.
  intros Hn Hd Hfit Hkey first r'.
  destruct (setup_options_normal_run E w Hn) as (Hdisp & Hman & Hdesk & _).
  fold first in Hdisp, Hman, Hdesk, Hd. rewrite Hd in Hdisp.
  apply Z.leb_le in Hfit.
  assert (Hgen : forall r'', r'' = r' ->
    result r'' = Normal tt
    /\ Options_display (Options (final r'')) = Some d
    /\ written_back "display" (events r'') = []
    /\ (forall g, Options_desktopGeometry (Options first) = Some g ->
        strlen g + 1 <= sizeof_buffer ->
        IS_OPTION_FALSE E' (first_char g) = false ->
        Options_desktopGeometry (Options (final r'')) = Some g)
    /\ (forall g, Options_desktopGeometry (Options first) = Some g ->
        sizeof_buffer < strlen g + 1 ->
        Options_desktopGeometry (Options (final r'')) = None)
    /\ (Options_managed (Options first) = true ->
        IS_OPTION_TRUE E' "y" = true ->
        Options_managed (Options (final r'')) = true)).
  2: { exact (Hgen r' eq_refl). }
  subst r'. clearbody first. clear Hn Hd. intros r''.
  destruct_world first. destruct opts as [od om og os]. unfold later_run.
  cbn [Options registry Options_managed Options_desktopGeometry
       Options_synchronous set_Options] in *.
  setup_options_run. rewrite Hkey. cbn [Z.eqb negb]. options_step.
  rewrite Hdisp, Hfit.
  repeat (options_step; rewrite ?strcmp_eqb; split_test;
          try (cbn [negb andb is_NULL] in *; congruence)); options_step.
  all: intros ->; options_step.
  all: repeat split; try congruence; try (vm_compute; congruence).
  all: try (intros g Hg Hfg Hff; specialize (Hdesk g Hg);
            try discriminate Hdesk; injection Hdesk as ->;
            apply Z.leb_le in Hfg; rewrite ?Hff in *;
            cbn [negb] in *; congruence).
  all: try (intros g Hg Hfg; specialize (Hdesk g Hg);
            try discriminate Hdesk; injection Hdesk as ->;
            apply Z.leb_gt in Hfg; congruence).
  all: intros Ho Ht; specialize (Hman Ho);
    try discriminate Hman; injection Hman as ->;
    cbn [first_char] in *; try congruence; discriminate.
Qed.

Lemma setup_options_later_run_reads_back_witness :
  let first := final (setup_options sample_env (set_registry ∅ sample_world)) in
  let r' := setup_options (make_env 0 0 (Some blk_wm_hints) None) (later_run first) in
  Options (final r') = mkOptions (Some ":1") true (Some "800x600") false
  /\ written_back "display" (events r') = [].
Proof.
  destruct (setup_options_later_run_reads_back sample_env
              (make_env 0 0 (Some blk_wm_hints) None)
              (set_registry ∅ sample_world) ":1")
    as (_ & _ & H3 & _); [reflexivity | reflexivity | vm_compute; discriminate
                         | reflexivity |].
  split; [reflexivity | exact H3].
Defined.

(** ** The desktop window, further *)

Lemma has_flag_lor (flags a b : Z) :
  has_flag flags (Z.lor a b) = has_flag flags a || has_flag flags b.
Proof.
  unfold has_flag. rewrite Z.land_lor_distr_r.
  destruct (Z.land flags a =? 0) eqn:Ha, (Z.land flags b =? 0) eqn:Hb; cbn [negb orb].
  - apply Z.eqb_eq in Ha, Hb. rewrite Ha, Hb. reflexivity.
  - apply negb_true_iff, Z.eqb_neq. intros H. apply Z.lor_eq_0_iff in H.
    apply Z.eqb_neq in Hb. tauto.
  - apply negb_true_iff, Z.eqb_neq. intros H. apply Z.lor_eq_0_iff in H.
    apply Z.eqb_neq in Ha. tauto.
  - apply negb_true_iff, Z.eqb_neq. intros H. apply Z.lor_eq_0_iff in H.
    apply Z.eqb_neq in Ha. tauto.
Qed.

Lemma has_flag_token (bit : Z) (field : geometry_scan -> Z) (geometry : string) :
  has_flag (fst (XParseGeometry geometry 0 0 640 480)) bit
  = negb (is_NULL (token bit field geometry)).
Proof.
  unfold XParseGeometry, token.
  destruct (XParseGeometry_scan geometry) as [g |]; [| reflexivity].
  cbn [fst]. now destruct (has_flag (scan_mask g) bit).
Qed.

(** X7.  create_desktop dereferences the visual that glXChooseVisual returned
    without a test: with a display at hand, it faults exactly when it asks
    GLX for a visual and gets none, and then no window has been created. *)
Theorem create_desktop_faults_without_glx_visual
    (E : environment) (geometry : string) (w : world) (d : xdisplay) :
  display w = Some d ->
  let r := create_desktop E geometry w in
  faulted (result r) = asks_glx E && is_NULL (glXChooseVisual E)
  /\ (faulted (result r) = true ->
      created_windows (events r) = [] /\ exit_codes (events r) = []).
Proof.
  intros Hd. unfold asks_glx.
  create_desktop_cases E geometry Hd; split; try reflexivity;
    intros Hf; try discriminate Hf; split; reflexivity.
Qed.

Lemma create_desktop_faults_without_glx_visual_witness :
  result (create_desktop (glx_env None) "800x600"
            (set_display (Some sample_xdisplay) sample_world)) = Fault.
Proof.
  destruct (create_desktop_faults_without_glx_visual (glx_env None) "800x600"
              (set_display (Some sample_xdisplay) sample_world) sample_xdisplay)
    as [H _]; [reflexivity |].
  destruct (result _); try discriminate H; reflexivity.
Defined.

(** X8.  The visual of the desktop window.  When GLX gave a visual, the window
    is a child of the root of that visual's screen, with its depth, its
    visual and a colormap, and the globals visual, screen and screen_depth
    are replaced by the visual's; otherwise the window copies depth and
    visual from the default root window and the three globals stay. *)
Theorem create_desktop_visual
    (E : environment) (geometry : string) (w : world) (d : xdisplay) :
  display w = Some d ->
  let r := create_desktop E geometry w in
  faulted (result r) = false ->
  match (if asks_glx E then glXChooseVisual E else None) with
  | Some v =>
      window_requests (events r)
      = [(RootWindowOf d (vi_screen v), vi_depth v, vi_visual v,
          bit_or [X11.CWBackPixel; X11.CWEventMask; X11.CWCursor; X11.CWColormap],
          Some (XCreateColormap E))]
      /\ visual (final r) = vi_visual v /\ screen (final r) = vi_screen v
      /\ screen_depth (final r) = to_uint (vi_depth v)
  | None =>
      window_requests (events r)
      = [(DefaultRootWindow d, X11.CopyFromParent, X11.CopyFromParent,
          bit_or [X11.CWBackPixel; X11.CWEventMask; X11.CWCursor], None)]
      /\ visual (final r) = visual w /\ screen (final r) = screen w
      /\ screen_depth (final r) = screen_depth w
  end.
Proof.
  intros Hd. unfold asks_glx.
  create_desktop_cases E geometry Hd; try discriminate; intros _;
    repeat split.
Qed.

Lemma create_desktop_visual_witness :
  let E := glx_env (Some (mkXVisualInfo 44 1 32)) in
  let r := create_desktop E "800x600"
             (set_screen_depth 16 (set_display (Some sample_xdisplay) sample_world)) in
  window_requests (events r) = [(37, 32, 44, 26626, Some 90)]
  /\ screen_depth (final r) = 32.
Proof.
  destruct (create_desktop_visual (glx_env (Some (mkXVisualInfo 44 1 32))) "800x600"
              (set_screen_depth 16 (set_display (Some sample_xdisplay) sample_world))
              sample_xdisplay) as (H1 & _ & _ & H4); [reflexivity | reflexivity |].
  split; [exact H1 | exact H4].
Defined.

Lemma default_inj {A} (a b : A) (o1 o2 : option A) :
  a <> b -> default a o1 = default a o2 -> default b o1 = default b o2 ->
  is_NULL o1 = is_NULL o2 -> o1 = o2.
Proof.
  intros Hab Ha Hb Hn. destruct o1, o2; cbn in *; congruence.
Qed.

Lemma written_mask_flags (g : geometry_spec) :
  geometry_spec_ok g = true ->
  has_flag (written_mask g) X11.XValue = negb (is_NULL (spec_xoffset g))
  /\ has_flag (written_mask g) X11.YValue = negb (is_NULL (spec_yoffset g))
  /\ has_flag (written_mask g) X11.WidthValue = negb (is_NULL (spec_width g))
  /\ has_flag (written_mask g) X11.HeightValue = negb (is_NULL (spec_height g)).
Proof.
  intros _. destruct g as [equals wd ht xo yo]. unfold written_mask.
  cbn [spec_width spec_height spec_xoffset spec_yoffset].
  destruct wd, ht, xo as [[[] ?] |], yo as [[[] ?] |]; repeat split.
Qed.

(** On a written geometry the scan finds the fields that were written, with
    the values their digits denote. *)
Lemma tokens_written (g : geometry_spec) :
  geometry_spec_ok g = true ->
  x_token (write_geometry g) = written_x g
  /\ y_token (write_geometry g) = written_y g
  /\ width_token (write_geometry g) = written_width g
  /\ height_token (write_geometry g) = written_height g.
Proof.
  intros Hok.
  pose proof (XParseGeometry_tokens (write_geometry g) 0 0 0 0) as H0.
  pose proof (XParseGeometry_tokens (write_geometry g) 1 1 1 1) as H1.
  rewrite XParseGeometry_written in H0, H1 by exact Hok. cbn [snd] in H0, H1.
  injection H0 as Hx0 Hy0 Hw0 Hh0. injection H1 as Hx1 Hy1 Hw1 Hh1.
  pose proof (has_flag_token X11.XValue tempX (write_geometry g)) as Fx.
  pose proof (has_flag_token X11.YValue tempY (write_geometry g)) as Fy.
  pose proof (has_flag_token X11.WidthValue tempWidth (write_geometry g)) as Fw.
  pose proof (has_flag_token X11.HeightValue tempHeight (write_geometry g)) as Fh.
  rewrite XParseGeometry_written in Fx, Fy, Fw, Fh by exact Hok. cbn [fst] in Fx, Fy, Fw, Fh.
  destruct (written_mask_flags g Hok) as (Mx & My & Mw & Mh).
  rewrite Mx in Fx. rewrite My in Fy. rewrite Mw in Fw. rewrite Mh in Fh.
  apply (f_equal negb) in Fx, Fy, Fw, Fh. rewrite !negb_involutive in Fx, Fy, Fw, Fh.
  fold (x_token (write_geometry g)) in Fx. fold (y_token (write_geometry g)) in Fy.
  fold (width_token (write_geometry g)) in Fw. fold (height_token (write_geometry g)) in Fh.
  repeat split; symmetry; apply (default_inj 0 1); try lia; try assumption.
  - unfold written_x. now destruct (spec_xoffset g).
  - unfold written_y. now destruct (spec_yoffset g).
  - unfold written_width. now destruct (spec_width g).
  - unfold written_height. now destruct (spec_height g).
Qed.

Lemma written_size_int (g : geometry_spec) :
  geometry_spec_ok g = true ->
  to_int (default 640 (written_width g)) = default 640 (written_width g)
  /\ to_int (default 480 (written_height g)) = default 480 (written_height g).
Proof.
  destruct g as [equals wd ht xo yo].
  unfold geometry_spec_ok, written_width, written_height.
  cbn [spec_width spec_height spec_xoffset spec_yoffset]. intros Hok.
  repeat match goal with
    | H : (_ && _) = true |- _ => apply andb_prop in H as [? ?]
    end.
  assert (Hint : forall z, 0 <= z < 2 ^ 31 -> to_int z = z).
  { intros z Hz. unfold to_int. rewrite to_uint_small by lia.
    destruct (_ <? _) eqn:Hc; [reflexivity | apply Z.ltb_ge in Hc; lia]. }
  split.
  - destruct wd as [wd |]; [| reflexivity]. cbn in *.
    destruct (number_ok_cons wd) as (? & ? & -> & ?); [assumption |]. now apply Hint.
  - destruct ht as [[c ht] |]; [| reflexivity]. cbn in *.
    repeat match goal with
      | H : (_ && _) = true |- _ => apply andb_prop in H as [? ?]
      end.
    destruct (number_ok_cons ht) as (? & ? & -> & ?); [assumption |]. now apply Hint.
Qed.

(** X9.  The size hints of the desktop window, for every geometry string:
    minimum and maximum size are the size of the window that was created,
    so that it cannot be resized; the position counts as given by the user
    exactly when an x or a y offset is written in the string, and the size
    counts as given by the user when a width or a height is written, as
    chosen by the program when neither is. *)
Theorem create_desktop_size_hints
    (E : environment) (g : geometry_spec) (w : world) (d : xdisplay) :
  geometry_spec_ok g = true ->
  display w = Some d ->
  let r := create_desktop E (write_geometry g) w in
  result r = Normal tt ->
  exists sh x y width height,
    size_hints_set (events r) = [sh]
    /\ created_windows (events r) = [(x, y, width, height)]
    /\ width = default 640 (written_width g)
    /\ height = default 480 (written_height g)
    /\ sh_min_width sh = width /\ sh_max_width sh = width
    /\ sh_min_height sh = height /\ sh_max_height sh = height
    /\ has_flag (sh_flags sh) X11.PMinSize = true
    /\ has_flag (sh_flags sh) X11.PMaxSize = true
    /\ has_flag (sh_flags sh) X11.USPosition
       = negb (is_NULL (spec_xoffset g) && is_NULL (spec_yoffset g))
    /\ has_flag (sh_flags sh) X11.USSize
       = negb (is_NULL (spec_width g) && is_NULL (spec_height g))
    /\ has_flag (sh_flags sh) X11.PSize
       = is_NULL (spec_width g) && is_NULL (spec_height g).
Proof.
  intros Hok Hd.
  pose proof (XParseGeometry_written g 0 0 640 480 Hok) as HW.
  destruct (written_mask_flags g Hok) as (Mx & My & Mw & Mh).
  destruct (written_size_int g Hok) as (Iw & Ih).
  create_desktop_cases E (write_geometry g) Hd; try discriminate; intros _;
    injection HW as -> -> -> -> ->; do 5 eexists;
    (split; [reflexivity |]); (split; [reflexivity |]);
    cbn [sh_min_width sh_max_width sh_min_height sh_max_height sh_flags];
    rewrite !has_flag_lor, Mx, My, Mw, Mh, Iw, Ih;
    destruct (is_NULL (spec_xoffset g)), (is_NULL (spec_yoffset g)),
      (is_NULL (spec_width g)), (is_NULL (spec_height g));
    repeat split.
Qed.

Lemma create_desktop_size_hints_witness :
  let g := mkSpec false None None (Some (false, [D5])) (Some (false, [D7])) in
  write_geometry g = "+5+7"
  /\ size_hints_set (events (create_desktop sample_env "+5+7"
                               (set_display (Some sample_xdisplay) sample_world)))
     = [mkXSizeHints 57 640 480 640 480]
  /\ created_windows (events (create_desktop sample_env "+5+7"
                                (set_display (Some sample_xdisplay) sample_world)))
     = [(5, 7, 640, 480)].
Proof.
  split; [reflexivity |].
  destruct (create_desktop_size_hints sample_env
              (mkSpec false None None (Some (false, [D5])) (Some (false, [D7])))
              (set_display (Some sample_xdisplay) sample_world) sample_xdisplay)
    as (sh & x & y & wd & ht & H & Hc & _); [reflexivity | reflexivity | reflexivity |].
  pose proof H as H'. vm_compute in H'. injection H' as <-.
  split; [exact H | reflexivity].
Defined.

(** ** Attach, further *)

Lemma depth_loop_reaches_end (depth_list : list Z) (screen_depth : Z) :
  (length depth_list <=? depth_loop depth_list screen_depth)%nat
  = negb (existsb (fun x => to_uint x =? screen_depth) depth_list).
Proof.
  induction depth_list as [| x rest IH]; [reflexivity |].
  cbn [depth_loop existsb length]. destruct (to_uint x =? screen_depth).
  - reflexivity.
  - cbn [orb]. rewrite <- IH. reflexivity.
Qed.

Lemma exit_codes_app (a b : list event) :
  exit_codes (a ++ b) = (exit_codes a ++ exit_codes b)%list.
Proof. apply omap_app. Qed.

Lemma create_desktop_facts
    (E : environment) (geometry : string) (w : world) (d : xdisplay) :
  display w = Some d ->
  let r := create_desktop E geometry w in
  final r = desktop_fields_from (final r) w
  /\ match result r with
     | Normal _ =>
         desktop_ok E = true
         /\ exit_codes (events r) = []
         /\ root_window (final r) = XCreateWindow E
         /\ screen_width (final r) = default 640 (width_token geometry)
         /\ screen_height (final r) = default 480 (height_token geometry)
     | Exited s =>
         desktop_ok E = false /\ s = 1
         /\ ends_with [EV_MESSAGE MSG_not_enough_memory_for_hints; EV_ExitProcess 1]
              (events r)
         /\ exit_codes (events r) = [1]
     | Fault => desktop_ok E = false /\ exit_codes (events r) = []
     end
  /\ (faulted (result r) = false ->
      screen_depth (final r)
      = match (if asks_glx E then glXChooseVisual E else None) with
        | Some v => to_uint (vi_depth v)
        | None => screen_depth w
        end).
Proof.
  intros Hd.
  pose proof (XParseGeometry_tokens geometry 0 0 640 480) as HT.
  unfold desktop_ok, asks_glx.
  create_desktop_cases E geometry Hd; cbn [snd] in HT;
    try (injection HT as -> -> -> ->).
  all: split; [first [reflexivity | destruct w; reflexivity] |].
  all: split; [| intros Hgl; first [discriminate Hgl | reflexivity]].
  all: repeat split; ends_with.
Qed.

Ltac generalize_setup_options' E :=
  match goal with
  | |- context [setup_options E ?w1] =>
      let Hs := fresh "Hs" in
      let Hx := fresh "Hx" in
      pose proof (setup_options_run_shape E w1) as Hs; cbv zeta in Hs;
      pose proof (setup_options_normal_run E w1) as Hx; cbv zeta in Hx;
      destruct (setup_options E w1) as [evs0 res0 w2];
      cbn [events result final] in Hs, Hx
  end.

Ltac generalize_create_desktop' E :=
  match goal with
  | |- context [create_desktop E ?g ?w1] =>
      let Hc := fresh "Hc" in
      let Hcd := fresh "Hcd" in
      pose proof (create_desktop_facts E g w1 _ eq_refl) as Hc; cbv zeta in Hc;
      destruct (create_desktop E g w1) as [evs1 res1 w3] eqn:Hcd;
      cbn [events result final] in Hc;
      destruct Hc as (Hframe & Hres & Hgl);
      destruct res1 as [[] | s1 |];
      unfold desktop_fields_from in Hframe;
      set (rw3 := root_window w3) in *; set (sd3 := screen_depth w3) in *;
      set (sc3 := screen w3) in *; set (vi3 := visual w3) in *;
      set (sh3 := screen_height w3) in *; set (sw3 := screen_width w3) in *;
      clearbody rw3 sd3 sc3 vi3 sh3 sw3; world_simpl_in Hgl
  end.

Ltac attach_step' E :=
  world_simpl; cbn [negb]; cbv beta iota;
  first [generalize_create_desktop' E | split_test];
  try (cbn [negb andb orb] in *; congruence).

Ltac depth_found :=
  repeat match goal with
    | H : (_ <=? depth_loop _ _)%nat = _ |- _ =>
        rewrite depth_loop_reaches_end in H;
        first [apply (proj1 (negb_false_iff _)) in H
              | apply (proj1 (negb_true_iff _)) in H]
    end.

(** What a run of process_attach that ends normally has done. *)
Lemma process_attach_normal_facts (E : environment) (w : world) :
  let r0 := setup_options E (before_options E w) in
  let r := process_attach E w in
  result r = Normal tt ->
  result r0 = Normal tt
  /\ exists d desktop_events,
       XOpenDisplay E (Options_display (Options (final r0))) = Some d
       /\ display (final r) = Some d
       /\ events r
          = (events r0
             ++ connection_events E (Options_display (Options (final r0)))
                  (Options_synchronous (Options (final r0))) d
             ++ desktop_events ++ subsystem_events E)%list
       /\ match Options_desktopGeometry (Options (final r0)) with
          | None =>
              desktop_events = []
              /\ screen_width (final r) = to_uint (WidthOfScreen d)
              /\ screen_height (final r) = to_uint (HeightOfScreen d)
              /\ root_window (final r) = DefaultRootWindow d
          | Some g =>
              (exists wd, display wd = Some d
                 /\ desktop_events = events (create_desktop E g wd)
                 /\ result (create_desktop E g wd) = Normal tt)
              /\ desktop_ok E = true
              /\ screen_width (final r) = default 640 (width_token g)
              /\ screen_height (final r) = default 480 (height_token g)
              /\ root_window (final r) = XCreateWindow E
          end
       /\ ((to_uint (ini_ScreenDepth E) =? 0) || depth_listed E d = true)
       /\ screen_depth (final r)
          = match desktop_glx_visual E (Options_desktopGeometry (Options (final r0))) with
            | Some v => to_uint (vi_depth v)
            | None =>
                if to_uint (ini_ScreenDepth E) =? 0
                then to_uint (DefaultDepthOfScreen d)
                else to_uint (ini_ScreenDepth E)
            end
       /\ X11DRV_GDI_Initialize E = true
       /\ wine_tsx11_lock (final r) = lk_lock_tsx11
       /\ wine_tsx11_unlock (final r) = lk_unlock_tsx11
       /\ old_tsx11_lock (final r) = wine_tsx11_lock w
       /\ old_tsx11_unlock (final r) = wine_tsx11_unlock w
       /\ WND_Driver_set (final r) = true
       /\ registry (final r) = registry (final r0).
Proof.
  intros r0 r. subst r0.
  assert (Hr : r = process_attach E w) by reflexivity. clearbody r. revert Hr.
  unfold before_options, process_attach, get_server_startup,
    connection_events, subsystem_events, depth_listed, desktop_glx_visual. mrun.
  generalize_setup_options' E.
  destruct Hs as [Hframe0 [(-> & _) | (-> & _)]];
    [| intros ->; world_simpl; discriminate].
  specialize (Hx eq_refl). destruct Hx as (_ & _ & _ & Hsync & _).
  set (o := Options w2) in *. set (reg := registry w2) in *.
  clearbody o reg. subst w2. world_simpl_in Hsync.
  repeat attach_step' E.
  all: intros ->; world_simpl; intros Hn; try discriminate Hn.
  all: try subst w3; world_simpl; depth_found.
  all: split; [reflexivity |].
  all: match goal with
       | Hx : XOpenDisplay _ _ = Some ?x |- _ =>
           first [ match goal with
                   | H : create_desktop _ _ _ = mkRun ?e _ _ |- _ => exists x, e
                   end
                 | exists x, [] ]
       end.
  all: world_simpl; cbv beta iota; cbn [orb].
  all: try (destruct Hres as (Hok & _ & Hrw & Hsw & Hsh)).
  all: repeat match goal with
         | |- _ /\ _ => split
         | |- exists wd : world, _ =>
             match goal with
             | H : create_desktop _ _ ?w1 = _ |- _ =>
                 exists w1; rewrite H; repeat split
             end
         end.
  all: try reflexivity; try assumption; try (apply negb_false_iff; assumption).
  all: try (specialize (Hgl eq_refl);
            repeat match goal with
              | H : asks_glx _ = _ |- _ => rewrite H in Hgl
              | H : glXChooseVisual _ = _ |- _ => rewrite H in Hgl
              end;
            exact Hgl).
Qed.

(** X10.  A normal attach performs its steps in one order: the options, the
    connection (XOpenDisplay, close-on-exec, the depth list if a depth was
    asked for, XOpenIM, the error handler in synchronous mode), the desktop
    window if there is a geometry, then GDI, the keyboard snapshot, the
    event handling, XVidMode if built in, and display.dll. *)
Theorem process_attach_order (E : environment) (w : world) :
  let r0 := setup_options E (before_options E w) in
  let r := process_attach E w in
  result r = Normal tt ->
  exists d desktop_events,
    XOpenDisplay E (Options_display (Options (final r0))) = Some d
    /\ events r
       = (events r0
          ++ connection_events E (Options_display (Options (final r0)))
               (Options_synchronous (Options w)) d
          ++ desktop_events ++ subsystem_events E)%list
    /\ match Options_desktopGeometry (Options (final r0)) with
       | None => desktop_events = []
       | Some g =>
           exists wd, display wd = Some d
             /\ desktop_events = events (create_desktop E g wd)
             /\ result (create_desktop E g wd) = Normal tt
       end.
Proof.
  intros r0 r Hn.
  destruct (process_attach_normal_facts E w Hn)
    as (H0 & d & de & Hopen & _ & Hev & Hdesk & _).
  destruct (setup_options_normal_run E _ H0) as (_ & _ & _ & Hsync & _).
  fold r0 in Hopen, Hev, Hdesk, Hsync. fold r in Hev.
  change (Options (before_options E w)) with (Options w) in Hsync.
  rewrite Hsync in Hev.
  exists d, de. split; [exact Hopen |]. split; [exact Hev |].
  destruct (Options_desktopGeometry (Options (final r0))); tauto.
Qed.

Lemma process_attach_order_witness :
  let E := make_env 0 24 (Some blk_wm_hints) None in
  let w := set_Options (mkOptions None false None true) sample_world in
  exists d desktop_events,
    events (process_attach E w)
    = (events (setup_options E (before_options E w))
       ++ connection_events E (Some ":0.0") true d
       ++ desktop_events ++ subsystem_events E)%list.
Proof.
  destruct (process_attach_order (make_env 0 24 (Some blk_wm_hints) None)
              (set_Options (mkOptions None false None true) sample_world))
    as (d & de & _ & Hev & _); [reflexivity |].
  exists d, de. exact Hev.
Defined.

Example process_attach_order_sample :
  events (process_attach (make_env 0 24 (Some blk_wm_hints) None)
            (set_Options (mkOptions None false None true) sample_world))
  = [EV_RegCloseKey; EV_XOpenDisplay (Some ":0.0"); EV_fcntl_close_on_exec 3;
     EV_XListDepths; EV_XFree (Some blk_depth_list); EV_XOpenIM;
     EV_XSetErrorHandler; EV_X11DRV_GDI_Initialize; EV_XGetKeyboardControl;
     EV_X11DRV_EVENT_Init; EV_X11DRV_XF86VM_Init; EV_LoadLibrary16 "display"].
Proof. reflexivity. Qed.

(** X11.  What a normal attach has negotiated.  The connection is the one to the
    resolved address; the depth asked for in wine.ini is one the screen
    lists and it is the screen depth, with the default depth standing in
    when none was asked for, in every run but those in which the desktop
    window got a visual from GLX: there the screen depth is the depth of
    that visual.
    Without a desktop geometry the screen size is the one of the screen and
    the root window is the default one, so that X11DRV_IsSingleWindow
    answers FALSE; with a geometry the size is the desktop's and the root
    window is the window that was created. *)
Theorem process_attach_negotiated (E : environment) (w : world) :
  let r0 := setup_options E (before_options E w) in
  let r := process_attach E w in
  result r = Normal tt ->
  exists d,
    XOpenDisplay E (Options_display (Options (final r0))) = Some d
    /\ display (final r) = Some d
    /\ ((to_uint (ini_ScreenDepth E) =? 0) || depth_listed E d = true)
    /\ screen_depth (final r)
       = match desktop_glx_visual E (Options_desktopGeometry (Options (final r0))) with
         | Some v => to_uint (vi_depth v)
         | None =>
             if to_uint (ini_ScreenDepth E) =? 0
             then to_uint (DefaultDepthOfScreen d)
             else to_uint (ini_ScreenDepth E)
         end
    /\ match Options_desktopGeometry (Options (final r0)) with
       | None =>
           screen_width (final r) = to_uint (WidthOfScreen d)
           /\ screen_height (final r) = to_uint (HeightOfScreen d)
           /\ root_window (final r) = DefaultRootWindow d
           /\ result (X11DRV_IsSingleWindow (final r)) = Normal false
       | Some g =>
           screen_width (final r) = default 640 (width_token g)
           /\ screen_height (final r) = default 480 (height_token g)
           /\ root_window (final r) = XCreateWindow E
           /\ result (X11DRV_IsSingleWindow (final r))
              = Normal (negb (XCreateWindow E =? DefaultRootWindow d))
       end.
Proof.
  intros r0 r Hn.
  destruct (process_attach_normal_facts E w Hn)
    as (_ & d & de & Hopen & Hd & _ & Hdesk & Hlisted & Hdepth & _).
  fold r0 in Hopen, Hdesk, Hdepth. fold r in Hd, Hdesk, Hdepth.
  exists d. do 4 (split; [assumption |]).
  assert (Hsingle : result (X11DRV_IsSingleWindow (final r))
                    = Normal (negb (root_window (final r) =? DefaultRootWindow d))).
  { unfold X11DRV_IsSingleWindow. mrun. rewrite Hd. reflexivity. }
  destruct (Options_desktopGeometry (Options (final r0))) as [g |].
  - destruct Hdesk as (_ & _ & Hsw & Hsh & Hrw).
    rewrite Hsingle, Hrw. auto.
  - destruct Hdesk as (_ & Hsw & Hsh & Hrw).
    rewrite Hsingle, Hrw, Z.eqb_refl. auto.
Qed.

Lemma process_attach_negotiated_witness :
  let r := process_attach (make_env 0 16 (Some blk_wm_hints) None) sample_world in
  let r_glx := process_attach (glx_env (Some (mkXVisualInfo 44 1 32))) sample_world in
  let r_single := process_attach (single_buffered (glx_env None)) sample_world in
  screen_depth (final r) = 16 /\ screen_width (final r) = 800
  /\ root_window (final r) = 4194305
  /\ result (X11DRV_IsSingleWindow (final r)) = Normal true
  /\ screen_depth (final r_glx) = 32
  /\ HAVE_OPENGL (single_buffered (glx_env None)) = true
  /\ screen_depth (final r_single) = 16.
Proof.
  destruct (process_attach_negotiated (make_env 0 16 (Some blk_wm_hints) None)
              sample_world) as (d & Hopen & _ & _ & H4 & H5); [reflexivity |].
  injection Hopen as <-.
  split; [exact H4 |].
  destruct H5 as (Hw & _ & Hrw & Hs). split; [exact Hw |]. split; [exact Hrw |].
  split; [rewrite Hs; reflexivity |].
  destruct (process_attach_negotiated (glx_env (Some (mkXVisualInfo 44 1 32)))
              sample_world) as (d & _ & _ & _ & G4 & _); [reflexivity |].
  split; [exact G4 |]. split; [reflexivity |].
  destruct (process_attach_negotiated (single_buffered (glx_env None))
              sample_world) as (d' & Hopen & _ & _ & S4 & _); [reflexivity |].
  injection Hopen as <-. exact S4.
Defined.

Lemma exit_codes_cons (e : event) (evs : list event) :
  exit_codes (e :: evs)
  = match e with
    | EV_ExitProcess s => s :: exit_codes evs
    | _ => exit_codes evs
    end.
Proof. now destruct e. Qed.

Ltac exit_codes_run :=
  repeat first [rewrite exit_codes_app | rewrite exit_codes_cons; cbv beta iota].

Ltac ends_with_run :=
  repeat first [exact (ends_with_here _) | eassumption | apply ends_with_cons
               | apply ends_with_app].

(** X12.  Whenever process_attach leaves through ExitProcess, the status is 1,
    ExitProcess is the last thing it does and the only exit, and a
    diagnostic message comes right before it; a run that does not leave
    calls ExitProcess nowhere. *)
Theorem process_attach_exits_with_message (E : environment) (w : world) :
  let r := process_attach E w in
  match result r with
  | Exited s =>
      s = 1 /\ exit_codes (events r) = [1]
      /\ exists m, ends_with [m; EV_ExitProcess 1] (events r)
           /\ is_diagnostic m = true
  | _ => exit_codes (events r) = []
  end.
Proof.
  intros r.
  pose (P := fun r' : run unit =>
          match result r' with
          | Exited s =>
              s = 1 /\ exit_codes (events r') = [1]
              /\ exists m, ends_with [m; EV_ExitProcess 1] (events r')
                   /\ is_diagnostic m = true
          | _ => exit_codes (events r') = []
          end).
  change (P r).
  assert (Hr : r = process_attach E w) by reflexivity. clearbody r. revert Hr.
  unfold process_attach, get_server_startup. mrun.
  generalize_setup_options' E.
  destruct Hs as [_ [(-> & _) | (-> & m & -> & Hdiag)]].
  2: { intros ->. subst P. world_simpl. split; [reflexivity |]. split.
       - destruct m; try discriminate Hdiag; reflexivity.
       - exists m. split; [ends_with | exact Hdiag]. }
  specialize (Hx eq_refl). destruct Hx as (_ & _ & _ & _ & Hex).
  repeat attach_step' E.
  all: intros ->; subst P; world_simpl; cbv beta iota.
  all: try (destruct Hres as (_ & -> & Hend & Hex1)).
  all: try (destruct Hres as (_ & Hex1 & _)).
  all: try (destruct Hres as (_ & Hex1)).
  all: repeat match goal with |- _ /\ _ => split end; try reflexivity.
  all: try (exit_codes_run; rewrite ?Hex, ?Hex1; reflexivity).
  all: eexists; split; [ends_with_run | reflexivity].
Qed.

(** X13.  When XOpenDisplay fails for the resolved address, process_attach
    prints the message that names the address and leaves with status 1.
    The TSX11 lock hooks are in place by then and are left in place. *)
Theorem process_attach_cannot_open_display (E : environment) (w : world) :
  let r0 := setup_options E (before_options E w) in
  let r := process_attach E w in
  result r0 = Normal tt ->
  XOpenDisplay E (Options_display (Options (final r0))) = None ->
  result r = Exited 1
  /\ events r
     = (events r0
        ++ [EV_XOpenDisplay (Options_display (Options (final r0)));
            EV_MESSAGE (MSG_cant_open_display (argv0 E)
                          (Options_display (Options (final r0))));
            EV_ExitProcess 1])%list
  /\ display (final r) = None
  /\ wine_tsx11_lock (final r) = lk_lock_tsx11
  /\ wine_tsx11_unlock (final r) = lk_unlock_tsx11.
Proof.
  intros r0 r. subst r0.
  assert (Hr : r = process_attach E w) by reflexivity. clearbody r. revert Hr.
  unfold before_options, process_attach, get_server_startup. mrun.
  generalize_setup_options' E. clear Hx.
  destruct Hs as [Hframe0 _].
  set (o := Options w2) in *. set (reg := registry w2) in *.
  clearbody o reg. subst w2.
  intros Hr Hn Hopen. world_simpl_in Hn. world_simpl_in Hopen. subst res0.
  revert Hr. world_simpl. cbv beta iota.
  destruct (NO_REENTRANT_X11 E); world_simpl; cbv beta iota;
    rewrite Hopen; intros ->; world_simpl; repeat split.
Qed.

Lemma process_attach_cannot_open_display_witness :
  let r := process_attach (with_XOpenDisplay (fun _ => None) sample_env) sample_world in
  result r = Exited 1
  /\ messages (events r)
     = [MSG_display_option_ignored "wine" ":0.0";
        MSG_cant_open_display "wine" (Some ":0.0")].
Proof.
  destruct (process_attach_cannot_open_display
              (with_XOpenDisplay (fun _ => None) sample_env) sample_world)
    as (H1 & H2 & _); [reflexivity | reflexivity |].
  split; [exact H1 | rewrite H2; reflexivity].
Defined.

(** X14.  process_attach ends normally exactly when the options can be resolved,
    the connection opens, a depth asked for in wine.ini is listed by the
    screen, the desktop window (if there is a geometry) can be built, and
    GDI initialises. *)
Theorem process_attach_succeeds_iff (E : environment) (w : world) :
  let r0 := setup_options E (before_options E w) in
  result (process_attach E w) = Normal tt
  <-> (result r0 = Normal tt
       /\ exists d,
            XOpenDisplay E (Options_display (Options (final r0))) = Some d
            /\ ((to_uint (ini_ScreenDepth E) =? 0) || depth_listed E d = true)
            /\ (is_NULL (Options_desktopGeometry (Options (final r0)))
                || desktop_ok E = true)
            /\ X11DRV_GDI_Initialize E = true).
Proof.
  intros r0. subst r0.
  pose (r := process_attach E w).
  change (result r = Normal tt
          <-> (result (setup_options E (before_options E w)) = Normal tt
               /\ exists d,
                    XOpenDisplay E
                      (Options_display
                         (Options (final (setup_options E (before_options E w)))))
                    = Some d
                    /\ ((to_uint (ini_ScreenDepth E) =? 0) || depth_listed E d = true)
                    /\ (is_NULL (Options_desktopGeometry
                                   (Options (final (setup_options E
                                                      (before_options E w)))))
                        || desktop_ok E = true)
                    /\ X11DRV_GDI_Initialize E = true)).
  assert (Hr : r = process_attach E w) by reflexivity. clearbody r. revert Hr.
  unfold before_options, process_attach, get_server_startup, depth_listed. mrun.
  generalize_setup_options' E. clear Hx.
  destruct Hs as [Hframe0 [(-> & _) | (-> & _)]].
  2: { intros ->. world_simpl. split; [discriminate | intros [H _]; discriminate H]. }
  set (o := Options w2) in *. set (reg := registry w2) in *.
  clearbody o reg. subst w2.
  repeat attach_step' E.
  all: intros ->; world_simpl; cbv beta iota; depth_found.
  all: try (destruct Hres as (Hok & _)).
  all: split.
  all: try (intros Hn; discriminate Hn).
  all: try (intros _; reflexivity).
  all: try (intros (_ & d' & Hd' & Hdep & Hdesk & Hgdi);
            try discriminate Hd'; try (injection Hd' as <-);
            rewrite ?negb_true_iff, ?negb_false_iff in *;
            repeat match goal with
              | H : ?b = _, H' : context [?b] |- _ => rewrite H in H'
              end;
            cbn [orb is_NULL negb] in *; congruence).
  all: intros _; split; [reflexivity |]; eexists; split; [reflexivity |];
    cbn [orb is_NULL]; repeat split; try assumption;
    try (apply negb_false_iff; assumption).
  all: rewrite ?negb_true_iff, ?negb_false_iff in *;
    repeat match goal with
      | H : ?b = _ |- context [?b] => rewrite H
      end; reflexivity.
Qed.

(** ** Detach and the entry point *)

Lemma ready_step_server_only (s : ready_step) (w : world) :
  final (ready_step_run s w) = set_server (server (final (ready_step_run s w))) w.
Proof.
  destruct w as [opts reg [d |] scr vis sw sh sd rw ticks kbd drv owner
                 lk ulk olk oulk el hel oel ohel srv];
    destruct s as [f | | [] | | n]; reflexivity.
Qed.

Lemma ready_run_server_only (steps : list ready_step) (w : world) :
  final (ready_run steps w) = set_server (server (final (ready_run steps w))) w.
Proof.
  revert w. induction steps as [| s steps IH]; intros w.
  - destruct w; reflexivity.
  - cbn [ready_run]. unfold mbind, M_bind, bind.
    pose proof (ready_step_server_only s w) as Hs.
    destruct (ready_step_run s w) as [evs [[] | c |] w1]; cbn [final] in *;
      try exact Hs.
    pose proof (IH w1) as H1.
    destruct (ready_run steps w1) as [evs2 res2 w2]. cbn [final] in *.
    rewrite H1, Hs. reflexivity.
Qed.

(** X15.  process_detach asks for the keyboard settings to be restored, cleans
    up XVidMode if it is built in and finalises GDI, in this order, and
    puts the saved hooks back.  It does not close the display and does not
    clear WND_Driver: the connection and the root window are as before. *)
Theorem process_detach_leaves_connection_open
    (E : environment) (w : world) (d : xdisplay) :
  display w = Some d ->
  let r := process_detach E w in
  result r = Normal tt
  /\ (exists values,
        events r
        = ([EV_XChangeKeyboardControl
              (bit_or [X11.KBKeyClickPercent; X11.KBBellPercent; X11.KBBellPitch;
                       X11.KBBellDuration; X11.KBAutoRepeatMode]) values]
           ++ (if HAVE_LIBXXF86VM E then [EV_X11DRV_XF86VM_Cleanup] else [])
           ++ [EV_X11DRV_GDI_Finalize])%list)
  /\ display (final r) = Some d
  /\ WND_Driver_set (final r) = WND_Driver_set w
  /\ root_window (final r) = root_window w
  /\ wine_tsx11_lock (final r) = old_tsx11_lock w
  /\ wine_tsx11_unlock (final r) = old_tsx11_unlock w
  /\ wine_errno_location (final r)
     = (if NO_REENTRANT_X11 E then old_errno_location w else wine_errno_location w)
  /\ wine_h_errno_location (final r)
     = (if NO_REENTRANT_X11 E then old_h_errno_location w
        else wine_h_errno_location w).
Proof.
  intros Hd. unfold process_detach. mrun. rewrite Hd.
  destruct (HAVE_LIBXXF86VM E), (NO_REENTRANT_X11 E); world_simpl;
    (split; [reflexivity |]); (split; [eexists; reflexivity |]);
    repeat split; exact Hd.
Qed.

Lemma process_detach_leaves_connection_open_witness :
  let r := process_detach sample_env ready_world in
  result r = Normal tt /\ display (final r) = Some sample_xdisplay
  /\ WND_Driver_set (final r) = true.
Proof.
  destruct (process_detach_leaves_connection_open sample_env ready_world
              sample_xdisplay) as (H1 & _ & H3 & H4 & _); [reflexivity |].
  split; [exact H1 |]. split; [exact H3 | exact H4].
Defined.

Lemma X11DRV_Init_attach (E : environment) (w : world) :
  X11DRV_Init E DLL_PROCESS_ATTACH w
  = mkRun (events (process_attach E w))
      (match result (process_attach E w) with
       | Normal _ => Normal true
       | Exited s => Exited s
       | Fault => Fault
       end) (final (process_attach E w)).
Proof.
  change (X11DRV_Init E DLL_PROCESS_ATTACH w)
    with (bind (process_attach E) (fun _ => ret true) w).
  unfold bind, ret. destruct (process_attach E w) as [evs [[] | s |] w1];
    cbn [events result final]; rewrite ?app_nil_r; reflexivity.
Qed.

Lemma X11DRV_Init_detach (E : environment) (w : world) :
  X11DRV_Init E DLL_PROCESS_DETACH w
  = mkRun (events (process_detach E w))
      (match result (process_detach E w) with
       | Normal _ => Normal true
       | Exited s => Exited s
       | Fault => Fault
       end) (final (process_detach E w)).
Proof.
  change (X11DRV_Init E DLL_PROCESS_DETACH w)
    with (bind (process_detach E) (fun _ => ret true) w).
  unfold bind, ret. destruct (process_detach E w) as [evs [[] | s |] w1];
    cbn [events result final]; rewrite ?app_nil_r; reflexivity.
Qed.

(** X16.  Attach and detach through X11DRV_Init undo each other on the hooks:
    after a normal attach, whatever is done while the driver is ready, the
    detach returns TRUE and leaves the TSX11 lock and unlock hooks and the
    two errno location hooks exactly as they were before the attach.  A
    reason that is neither attach nor detach does nothing and returns
    TRUE. *)
Theorem X11DRV_Init_restores_hooks
    (E : environment) (w : world) (steps : list ready_step) :
  result (X11DRV_Init E DLL_PROCESS_ATTACH w) = Normal true ->
  let ready := final (X11DRV_Init E DLL_PROCESS_ATTACH w) in
  let r := X11DRV_Init E DLL_PROCESS_DETACH (final (ready_run steps ready)) in
  result r = Normal true
  /\ wine_tsx11_lock (final r) = wine_tsx11_lock w
  /\ wine_tsx11_unlock (final r) = wine_tsx11_unlock w
  /\ wine_errno_location (final r) = wine_errno_location w
  /\ wine_h_errno_location (final r) = wine_h_errno_location w
  /\ (forall reason w', reason <> DLL_PROCESS_ATTACH -> reason <> DLL_PROCESS_DETACH ->
      X11DRV_Init E reason w' = mkRun [] (Normal true) w').
Proof.
  intros Hn ready r. subst r ready.
  rewrite X11DRV_Init_attach in *. cbn [result final] in *.
  assert (Hn' : result (process_attach E w) = Normal tt).
  { destruct (result (process_attach E w)) as [[] | |]; try discriminate Hn; reflexivity. }
  clear Hn.
  destruct (process_attach_ready E w Hn')
    as (_ & _ & _ & _ & [d Hd] & He & Hhe & Hoe & Hohe).
  destruct (process_attach_normal_facts E w Hn')
    as (_ & _ & _ & _ & _ & _ & _ & _ & _ & _ & _ & _ & Hol & Hou & _).
  destruct (ready_run_frame steps _ d Hd) as (_ & Hd' & _).
  pose proof (ready_run_server_only steps (final (process_attach E w))) as Hsrv.
  set (w' := final (ready_run steps (final (process_attach E w)))) in *.
  rewrite X11DRV_Init_detach. unfold process_detach. mrun. rewrite Hd'.
  destruct (HAVE_LIBXXF86VM E); world_simpl; rewrite Hsrv; world_simpl;
    rewrite ?Hol, ?Hou, ?He, ?Hhe, ?Hoe, ?Hohe.
  all: destruct (NO_REENTRANT_X11 E); world_simpl;
    rewrite ?Hol, ?Hou, ?He, ?Hhe, ?Hoe, ?Hohe.
  all: (split; [reflexivity |]); do 4 (split; [reflexivity |]).
  all: intros reason w0 Ha Hdt; unfold X11DRV_Init;
    apply Z.eqb_neq in Ha, Hdt; rewrite Ha, Hdt; reflexivity.
Qed.

Lemma X11DRV_Init_restores_hooks_witness :
  let ready := final (X11DRV_Init sample_env DLL_PROCESS_ATTACH sample_world) in
  let r := X11DRV_Init sample_env DLL_PROCESS_DETACH
             (final (ready_run [call_SetScreenSaveActive true] ready)) in
  wine_tsx11_lock ready = lk_lock_tsx11
  /\ wine_errno_location ready = fn_x11_errno_location
  /\ result r = Normal true
  /\ wine_tsx11_lock (final r) = lk_extern 1
  /\ wine_tsx11_unlock (final r) = lk_extern 2.
Proof.
  split; [reflexivity |]. split; [reflexivity |].
  destruct (X11DRV_Init_restores_hooks sample_env sample_world
              [call_SetScreenSaveActive true]) as (H1 & H2 & H3 & _);
    [reflexivity |].
  split; [exact H1 |]. split; [exact H2 | exact H3].
Defined.

(** ** The server start-up time and the screen saver *)

(** X17.  The offset that get_server_startup stores is an unsigned 32 bit value
    which, added to the tick count, gives the time of day in milliseconds
    modulo 2^32.  The routine emits nothing and always returns. *)
Theorem get_server_startup_offset (E : environment) (w : world) :
  let r := get_server_startup E w in
  0 <= X11DRV_server_startticks (final r) < 2 ^ 32
  /\ to_uint (X11DRV_server_startticks (final r) + GetTickCount E)
     = to_uint (gettimeofday_sec E * 1000 + gettimeofday_usec E `quot` 1000)
  /\ result r = Normal tt /\ events r = [].
Proof.
  unfold get_server_startup. mrun. world_simpl. unfold to_uint.
  split; [apply Z.mod_pos_bound; lia |].
  split; [| split; reflexivity].
  rewrite Zplus_mod_idemp_l. f_equal. lia.
Qed.

Lemma to_int16_small (z : Z) : 0 <= z < 2 ^ 15 -> to_int16 z = z.
Proof.
  intros Hz. unfold to_int16. rewrite Z.mod_small by lia.
  destruct (z <? 2 ^ 15) eqn:Hlt; [reflexivity |].
  apply Z.ltb_ge in Hlt. lia.
Qed.

(** X18.  On a server that stores the timeout of the request, a timeout that is
    not negative reads back through X11DRV_GetScreenSaveTimeout as itself,
    capped at 32767, and the screen saver counts as active exactly when
    that timeout is not zero. *)
Theorem SetScreenSaveTimeout_reads_back (n : Z) (w : world) (d : xdisplay) :
  display w = Some d ->
  0 <= n ->
  let w' := final (X11DRV_SetScreenSaveTimeout n w) in
  result (X11DRV_GetScreenSaveTimeout w') = Normal (Z.min n 32767)
  /\ result (X11DRV_GetScreenSaveActive w') = Normal (negb (n =? 0)).
Proof.
  intros Hd Hn w'. subst w'.
  rewrite (SetScreenSaveTimeout_run _ _ _ Hd). cbn [final].
  rewrite (GetScreenSaveActive_result _ d) by exact Hd.
  unfold X11DRV_GetScreenSaveTimeout, TSXGetScreenSaver. mrun. world_simpl.
  rewrite Hd. cbn [result]. world_simpl.
  unfold srv_SetScreenSaver.
  rewrite (to_int16_small (Z.min n 32767)) by lia.
  rewrite (to_int16_small 60) by lia.
  destruct (Z.min n 32767 <? -1) eqn:H1; [apply Z.ltb_lt in H1; lia |].
  destruct (Z.min n 32767 =? -1) eqn:H2; [apply Z.eqb_eq in H2; lia |].
  cbn [orb Z.ltb Z.eqb Z.compare srv_timeout]. split; [reflexivity |].
  f_equal. f_equal.
  destruct (Z.eqb_spec n 0) as [-> | Hne]; [reflexivity |].
  apply Z.eqb_neq. lia.
Qed.

Lemma SetScreenSaveTimeout_reads_back_witness :
  result (X11DRV_GetScreenSaveTimeout
            (final (X11DRV_SetScreenSaveTimeout 40000 ready_world)))
  = Normal 32767.
Proof.
  destruct (SetScreenSaveTimeout_reads_back 40000 ready_world sample_xdisplay)
    as [H _]; [reflexivity | lia |]. exact H.
Defined.
